(** * eland: a table view over documents of a search index

    A shallow embedding of [eland/frame.py] (class [DataFrame]) and of
    [eland/ml/ml_model.py] (class [MLModel]).

    Python values are a tagged union, Python dicts are association lists in
    insertion order, exceptions are the left summand of a result type, and
    the methods of [DataFrame] run in a state-and-exception monad over a
    world made of the object heap and the log of queries sent to the store.

    Code that the two files call but do not contain is taken as it is used:
    [eland.Mappings] is a record of its four methods, and [eland.Client],
    [elasticsearch_dsl.Search] and [pandas] are the fields of the class
    [Collaborators]. *)

From stdpp Require Import base option list strings gmap.
From Stdlib Require Import ZArith QArith Lia.

Set Warnings "-register-all".

Local Open Scope Z_scope.

(** ** Python values *)

(** What [json] decoding yields, and the pandas timestamp that
    [pd.to_datetime] makes of a scalar.  A float is carried as the rational
    it denotes: no arithmetic is done on it anywhere in the code. *)
Inductive value : Type :=
  | VNone
  | VBool (b : bool)
  | VInt (n : Z)
  | VFloat (q : Q)
  | VStr (s : string)
  | VList (xs : list value)
  | VDict (items : list (string * value))
  | VTimestamp (ns : Z).

(** [type(x) is list] *)
Definition is_list (v : value) : bool :=
  match v with VList _ => true | _ => false end.

(** [type(x) is dict] *)
Definition is_dict (v : value) : bool :=
  match v with VDict _ => true | _ => false end.

(** [x is None] (for [values.count(None)]: only [None] equals [None]) *)
Definition is_None (v : value) : bool :=
  match v with VNone => true | _ => false end.

(** ** Python dicts: keys in insertion order, no key twice *)

(** [d.get(k)] *)
Fixpoint dict_get {V} (d : list (string * V)) (k : string) : option V :=
  match d with
  | [] => None
  | (k', v) :: d' => if decide (k' = k) then Some v else dict_get d' k
  end.

(** [d[k] = v]: a key already there keeps its place, a new one goes last. *)
Fixpoint dict_set {V} (d : list (string * V)) (k : string) (v : V)
  : list (string * V) :=
  match d with
  | [] => [(k, v)]
  | (k', v') :: d' =>
      if decide (k' = k) then (k, v) :: d' else (k', v') :: dict_set d' k v
  end.

(** [list(d)], the keys in order *)
Definition dict_keys {V} (d : list (string * V)) : list string := d.*1.

(** A dict of Python values *)
Abbreviation dict := (list (string * value)).

(** ** Exceptions *)

Inductive exn : Type :=
  | TypeError (msg : string)
  | KeyError (key : string)
  | ValueError (msg : string)
  | OverflowError (msg : string)
  | UnknownColumnError (name : string)
  | NotFoundError
  | TransportError (status : Z)
  | PandasError (msg : string).

(** A computation that may raise: [inl e] is [raise e]. *)
Definition result (A : Type) : Type := exn + A.

Definition ok {A} (a : A) : result A := inr a.
Definition raise {A} (e : exn) : result A := inl e.

Definition rbind {A B} (c : result A) (k : A → result B) : result B :=
  match c with
  | inl e => inl e
  | inr a => k a
  end.

Declare Scope result_scope.
Delimit Scope result_scope with result.
Notation "x <- c ; k" := (rbind c (λ x, k))
  (at level 20, c at level 100, k at level 200, only parsing) : result_scope.

(** [for a in xs: acc = body(a, acc)], stopping at the first exception *)
Fixpoint for_each {A S} (xs : list A) (body : A → S → result S) (acc : S)
  : result S :=
  match xs with
  | [] => ok acc
  | a :: xs' => rbind (body a acc) (for_each xs' body)
  end.

(** [v[k]] for a string key *)
Definition py_getitem (v : value) (k : string) : result value :=
  match v with
  | VDict items =>
      match dict_get items k with
      | Some x => ok x
      | None => raise (KeyError k)
      end
  | VList _ | VStr _ => raise (TypeError "indices must be integers")
  | _ => raise (TypeError "object is not subscriptable")
  end.

Fixpoint chars (s : string) : list value :=
  match s with
  | EmptyString => []
  | String c s' => VStr (String c EmptyString) :: chars s'
  end.

(** [for a in v]: the elements of a list, the keys of a dict, the
    characters of a string *)
Definition py_iter (v : value) : result (list value) :=
  match v with
  | VList xs => ok xs
  | VDict items => ok (VStr <$> dict_keys items)
  | VStr s => ok (chars s)
  | _ => raise (TypeError "object is not iterable")
  end.

(** [s[:-1]] *)
Fixpoint drop_last (s : string) : string :=
  match s with
  | EmptyString => EmptyString
  | String c EmptyString => EmptyString
  | String c s' => String c (drop_last s')
  end.

(** ** [eland.Mappings]

    The class is not in the files at hand; [DataFrame] uses four of its
    methods, and any behaviour of them is allowed here. *)
Record Mappings : Type := {
  source_fields : list string;
  numeric_source_fields : list string;
  is_source_field : string → bool;
  source_field_pd_dtype : string → bool * string
}.

(** ** pandas frames *)

(** A cell holds a Python object or a number of the dtype of its column,
    or [NaN] where a row had no such key or a number is missing. *)
Inductive cell : Type :=
  | Cell (v : value)
  | NaN.

Inductive label : Type :=
  | LInt (i : nat)
  | LStr (s : string).

(** A frame is column-major: the row labels, then the named columns, each
    as long as the index. *)
Record Frame : Type := {
  index : list label;
  data : list (string * list cell)
}.

(** [df.columns] *)
Definition df_columns (df : Frame) : list string := (data df).*1.

(** The [i]-th row, as the pairs of column name and cell *)
Definition df_row (df : Frame) (i : nat) : list (string * cell) :=
  (λ col, (col.1, default NaN (col.2 !! i))) <$> data df.

(** [df.iterrows()] without the labels *)
Definition df_rows (df : Frame) : list (list (string * cell)) :=
  df_row df <$> seq 0 (length (index df)).

(** The keys of the rows, each once, in order of first appearance *)
Definition add_keys (acc ks : list string) : list string :=
  foldl (λ acc k, if decide (k ∈ acc) then acc else acc ++ [k]) acc ks.

Definition union_keys (rows : list dict) : list string :=
  foldl (λ acc row, add_keys acc (dict_keys row)) [] rows.

Definition cell_of (row : dict) (c : string) : cell :=
  match dict_get row c with
  | Some v => Cell v
  | None => NaN
  end.

(** [df[c] = v] for a scalar [v]: one cell per row *)
Definition df_setitem (df : Frame) (c : string) (v : value) : Frame :=
  {| index := index df;
     data := dict_set (data df) c (replicate (length (index df)) (Cell v)) |}.

(** [df[c]] for one name *)
Definition df_getitem (df : Frame) (c : string) : result (list cell) :=
  match dict_get (data df) c with
  | Some xs => ok xs
  | None => raise (KeyError c)
  end.

(** [df[cols]] for a list of names: those columns, in the order asked *)
Fixpoint select_columns (cols : list (string * list cell)) (names : list string)
  : result (list (string * list cell)) :=
  match names with
  | [] => ok []
  | c :: names' =>
      match dict_get cols c with
      | None => raise (KeyError c)
      | Some xs =>
          rbind (select_columns cols names') (λ rest, ok ((c, xs) :: rest))
      end
  end.

Definition df_getitem_list (df : Frame) (names : list string) : result Frame :=
  rbind (select_columns (data df) names)
        (λ cols, ok {| index := index df; data := cols |}).

(** ** The store and the libraries *)

Inductive Client : Type :=
  | EsClient (hosts : string).

(** One [search.aggs.metric(name, kind, field=field)] *)
Record agg : Type := {
  agg_name : string;
  agg_kind : string;
  agg_field : string
}.

(** The aggregations of a search are a dict by name: [metric] with a name
    already there replaces that entry where it stands, a new name goes to
    the end. *)
Fixpoint agg_set (aggs : list agg) (a : agg) : list agg :=
  match aggs with
  | [] => [a]
  | a' :: aggs' =>
      if decide (agg_name a' = agg_name a) then a :: aggs'
      else a' :: agg_set aggs' a
  end.

(** The calls that reach the store *)
Inductive query : Type :=
  | QSearch (c : Client) (index : string) (size : Z)
  | QCount (c : Client) (index : string)
  | QExecute (c : Client) (index : string) (aggs : list agg)
  | QMappings (c : Client) (index : string).

(** What [frame.py] calls and does not define.  Each may raise.
    - [ed_Client c] is [ed.Client(c)], [client_search c index n] is
      [c.search(index=index, size=n)], [client_count c index] is
      [c.count(index=index)], [Mappings_of_index c index] is
      [ed.Mappings(c, index)], which asks the store for its schema, and
      [Mappings_of_columns m columns] is
      [ed.Mappings(mappings=m, columns=columns)], which asks nothing;
    - [search_execute c index aggs] is [.execute()] on a
      [Search(using=c, index=index).extra(size=0)] whose aggregations are
      the dict [aggs], and yields [response.aggregations];
    - [to_datetime] and [astype] are pandas';
    - [convert_objects col c] is the cell pandas stores for the object [c]
      of a column it builds from the objects [col]: the cast to the dtype
      it infers for the whole column (integers with a gap become floats,
      [None] among numbers becomes NaN, and so on). *)
Class Collaborators : Type := {
  ed_Client : Client → Client;
  client_search : Client → string → Z → result value;
  client_count : Client → string → result Z;
  Mappings_of_index : Client → string → result Mappings;
  Mappings_of_columns : Mappings → list string → result Mappings;
  search_execute : Client → string → list agg → result value;
  to_datetime : value → result value;
  astype : list cell → string → result (list cell);
  convert_objects : list cell → cell → cell
}.

(** ** Frames built from Python data *)

(** A column built from objects: each is cast as the whole column asks. *)
Definition pd_column `{Collaborators} (col : list cell) : list cell :=
  convert_objects col <$> col.

(** [pd.DataFrame(data=rows)] for a list of dicts: a column for each key,
    NaN where a row has no such key, then the dtype of each column
    inferred *)
Definition pd_DataFrame `{Collaborators} (rows : list dict) : Frame :=
  {| index := LInt <$> seq 0 (length rows);
     data := (λ c, (c, pd_column ((λ row, cell_of row c) <$> rows)))
             <$> union_keys rows |}.

(** [pd.DataFrame(data=d, index=labels)] for a dict of lists, each as long
    as [labels]; the dtype of each column is inferred *)
Definition pd_DataFrame_of_dict `{Collaborators}
    (d : list (string * list value)) (labels : list string) : Frame :=
  {| index := LStr <$> labels;
     data := (λ kv : string * list value, (kv.1, pd_column (Cell <$> kv.2)))
             <$> d |}.

(** Modelled from the spec: [ed.Mappings(mappings=m, columns=columns)] is
    not in the files at hand.  The spec's [narrow] "returns a new snapshot
    containing only the requested fields, preserving their relative order
    from the parent; fails with UnknownColumnError if any requested name is
    not a projectable field of the parent".  Projectable is what
    [is_source_field] answers, as in the check [__getitem__] makes itself
    for a single name. *)
Definition Mappings_narrow (m : Mappings) (columns : list string)
  : result Mappings :=
  match filter (λ c, is_source_field m c = false) columns with
  | c :: _ => raise (UnknownColumnError c)
  | [] =>
      ok {| source_fields := filter (λ f, f ∈ columns) (source_fields m);
            numeric_source_fields :=
              filter (λ f, f ∈ columns) (numeric_source_fields m);
            is_source_field :=
              λ f, bool_decide (f ∈ columns) && is_source_field m f;
            source_field_pd_dtype :=
              λ f, if decide (f ∈ columns) then source_field_pd_dtype m f
                   else (false, "object") |}
  end.

(** The spec's error kind [UnknownColumnError]: what [__getitem__] raises
    for a name that is no column, and what [narrow] fails with. *)
Inductive UnknownColumn : exn → Prop :=
  | UnknownColumn_getitem (name : string) :
      UnknownColumn (TypeError ("Column does not exist: [" +:+ name +:+ "]"))
  | UnknownColumn_narrow (name : string) :
      UnknownColumn (UnknownColumnError name).

(** ** Flattening one document *)

Section Flatten.
Context `{Collaborators}.
Variable mappings : Mappings.

Local Open Scope result_scope.

(** The head of [flatten]: is the path so far a source field, and of
    which dtype *)
Definition path_dtype (name : string) : bool * string :=
  if decide (name = "") then (false, "object")
  else source_field_pd_dtype mappings (drop_last name).

(** The last branch of [flatten]: coerce, then set, wrap or append *)
Definition emit (x : value) (name : string) (pd_dtype : string) (out : dict)
  : result dict :=
  let field_name := drop_last name in
  x <- (if decide (pd_dtype = "datetime64[ns]") then to_datetime x
        else ok x) ;
  match dict_get out field_name with
  | Some (VList l) => ok (dict_set out field_name (VList (l ++ [x])))
  | Some cur => ok (dict_set out field_name (VList ([cur] ++ [x])))
  | None => ok (dict_set out field_name x)
  end.

(** The inner function [flatten(x, name)]; the dict [out] it fills is
    passed in and handed back.  A dict is walked by its items, which for
    distinct keys is [for a in x: flatten(x[a], ...)]. *)
Fixpoint flatten (x : value) (name : string) (out : dict) {struct x}
  : result dict :=
  let '(is_source_field, pd_dtype) := path_dtype name in
  match x, is_source_field with
  | VDict items, false =>
      (fix each (items : list (string * value)) (out : dict) : result dict :=
         match items with
         | [] => ok out
         | (a, xa) :: items' =>
             out <- flatten xa (name +:+ a +:+ ".") out ;
             each items' out
         end) items out
  | VList xs, false =>
      (fix each (xs : list value) (out : dict) : result dict :=
         match xs with
         | [] => ok out
         | a :: xs' =>
             out <- flatten a name out ;
             each xs' out
         end) xs out
  | _, true => emit x name pd_dtype out
  | _, false => ok out
  end.

Definition flatten_dict (y : value) : result dict :=
  flatten y "" [].

(** *** The leaves a traversal meets

    Not from the source: the spec's "occurrences in document traversal
    order".  Each pair is a field name and the raw value found at it. *)
Fixpoint occurrences (x : value) (name : string) {struct x}
  : list (string * value) :=
  match x, (path_dtype name).1 with
  | VDict items, false =>
      (fix each (items : list (string * value)) : list (string * value) :=
         match items with
         | [] => []
         | (a, xa) :: items' =>
             occurrences xa (name +:+ a +:+ ".") ++ each items'
         end) items
  | VList xs, false =>
      (fix each (xs : list value) : list (string * value) :=
         match xs with
         | [] => []
         | a :: xs' => occurrences a name ++ each xs'
         end) xs
  | _, true => [(drop_last name, x)]
  | _, false => []
  end.

(** The raw values of field [f] in document [y], in traversal order *)
Definition occurrences_of (y : value) (f : string) : list value :=
  (filter (λ kv : string * value, kv.1 = f) (occurrences y "")).*2.

(** What [flatten] stores for a raw value at field [f] *)
Definition coerce (f : string) (x : value) : result value :=
  if decide ((source_field_pd_dtype mappings f).2 = "datetime64[ns]")
  then to_datetime x else ok x.

Fixpoint coerce_all (kvs : list (string * value))
  : result (list (string * value)) :=
  match kvs with
  | [] => ok []
  | (f, x) :: kvs' =>
      x <- coerce f x ;
      rest <- coerce_all kvs' ;
      ok ((f, x) :: rest)
  end.

(** One coerced leaf put into the row: set, wrap or append *)
Definition merge (out : dict) (kv : string * value) : dict :=
  match dict_get out kv.1 with
  | Some (VList l) => dict_set out kv.1 (VList (l ++ [kv.2]))
  | Some cur => dict_set out kv.1 (VList ([cur] ++ [kv.2]))
  | None => dict_set out kv.1 kv.2
  end.

(** A pass over leaves: coerce them in order, then merge them in order.
    It raises what the first failing coercion raises. *)
Definition pass (kvs : list (string * value)) (out : dict) : result dict :=
  l <- coerce_all kvs ;
  ok (foldl merge out l).

End Flatten.

(** The cell a row ends with for a field, from the cell [cur] it starts
    with and the values [vs] that come in *)
Definition coalesce (cur : option value) (vs : list value) : option value :=
  match vs with
  | [] => cur
  | v :: vs' =>
      match cur with
      | Some (VList l) => Some (VList (l ++ vs))
      | Some c => Some (VList (c :: vs))
      | None =>
          match vs' with
          | [] => Some v
          | _ :: _ =>
              match v with
              | VList l => Some (VList (l ++ vs'))
              | _ => Some (VList (v :: vs'))
              end
          end
      end
  end.

(** The values of field [f] among leaves, in order *)
Definition values_of (f : string) (kvs : list (string * value)) : list value :=
  (filter (λ kv, kv.1 = f) kvs).*2.

(** ** From search results to a frame *)

Section Results.
Context `{Collaborators}.
Variable mappings : Mappings.

Local Open Scope result_scope.

(** The loop over the hits: [rows.append(flatten_dict(hit['_source']))] *)
Definition append_row (hit : value) (rows : list dict) : result (list dict) :=
  row <- py_getitem hit "_source" ;
  out <- flatten_dict mappings row ;
  ok (rows ++ [out]).

(** The body of the loop over the missing columns *)
Definition fill_missing (missing : string) (df : Frame) : result Frame :=
  let '(is_source_field, pd_dtype) := source_field_pd_dtype mappings missing in
  let df := df_setitem df missing VNone in
  col <- df_getitem df missing ;
  _ <- astype col pd_dtype ;
  ok df.

(** [list(set(self.columns) - set(df.columns))]: in whatever order the
    set hands its elements out *)
Definition missing_columns (columns : list string) (df : Frame)
  : list string :=
  elements ((list_to_set columns : gset string) ∖ list_to_set (df_columns df)).

(** The hits of a search result, and the documents in them: what the
    first loop of [_es_results_to_pandas] walks over *)
Definition hits_of (results : value) : result (list value) :=
  hits <- py_getitem results "hits" ;
  hits <- py_getitem hits "hits" ;
  py_iter hits.

Definition documents (results : value) : result (list value) :=
  hits <- hits_of results ;
  for_each hits (λ hit docs, doc <- py_getitem hit "_source" ;
                             ok (docs ++ [doc])) [].

Definition _es_results_to_pandas (results : value) : result Frame :=
  hits <- py_getitem results "hits" ;
  hits <- py_getitem hits "hits" ;
  hits <- py_iter hits ;
  rows <- for_each hits append_row [] ;
  let df := pd_DataFrame rows in
  df <- for_each (missing_columns (source_fields mappings) df) fill_missing df ;
  df_getitem_list df (source_fields mappings).

End Results.

(** ** Objects and the world *)

Inductive operation : Type :=
  | Operation (descr : string).

(** The attributes [__init__] sets *)
Record DataFrameObj : Type := {
  client : Client;
  index_pattern : string;
  mappings : Mappings;
  operations : list operation
}.

(** Objects live at the positions of the heap; [queries] is every call
    made to the store so far, oldest first. *)
Record world : Type := {
  heap : list DataFrameObj;
  queries : list query
}.

(** A method: it may read and change the world, and return or raise. *)
Definition M (A : Type) : Type := world → result A * world.

Definition ret {A} (a : A) : M A := λ w, (ok a, w).

Definition throw {A} (e : exn) : M A := λ w, (raise e, w).

Definition bind {A B} (c : M A) (k : A → M B) : M B :=
  λ w, match c w with
       | (inl e, w') => (inl e, w')
       | (inr a, w') => k a w'
       end.

(** A computation that touches nothing *)
Definition lift {A} (r : result A) : M A := λ w, (r, w).

Declare Scope M_scope.
Delimit Scope M_scope with M.
Notation "x <- c ; k" := (bind c (λ x, k))
  (at level 20, c at level 100, k at level 200, only parsing) : M_scope.

(** [self.attr] *)
Definition self_ (self : nat) : M DataFrameObj :=
  λ w, match heap w !! self with
       | Some obj => (ok obj, w)
       | None => (raise (ValueError "no such object"), w)
       end.

(** A new object, placed after all others *)
Definition new_object (obj : DataFrameObj) : M nat :=
  λ w, (ok (length (heap w)),
        {| heap := heap w ++ [obj]; queries := queries w |}).

(** The world after one more query *)
Definition asked (w : world) (q : query) : world :=
  {| heap := heap w; queries := queries w ++ [q] |}.

(** One call to the store: logged, then answered *)
Definition ask {A} (q : query) (answer : result A) : M A :=
  λ w, (answer, asked w q).

(** A subscript: a tuple of names, or any other object *)
Inductive item : Type :=
  | ItemTuple (names : list string)
  | Item (v : value).

(** [sys.maxsize] *)
Definition maxsize : Z := 2 ^ 63 - 1.

Module DataFrame.
Section Methods.
Context `{Collaborators}.

Local Open Scope M_scope.

(** [DataFrame(client, index_pattern, mappings, operations)]: the new
    object, once [__init__] has run to its end *)
Definition __init__ (client : Client) (index_pattern : string)
    (mappings : option Mappings) (operations : option (list operation))
  : M nat :=
  let client := ed_Client client in
  mappings <-
    match mappings with
    | None => ask (QMappings client index_pattern)
                  (Mappings_of_index client index_pattern)
    | Some mappings => ret mappings
    end ;
  let operations :=
    match operations with
    | Some operations => [] ++ operations
    | None => []
    end in
  new_object {| client := client; index_pattern := index_pattern;
                mappings := mappings; operations := operations |}.

Definition head (self : nat) (n : Z) : M Frame :=
  obj <- self_ self ;
  results <- ask (QSearch (client obj) (index_pattern obj) n)
                 (client_search (client obj) (index_pattern obj) n) ;
  lift (_es_results_to_pandas (mappings obj) results).

(** The two aggregations asked for one field *)
Definition metrics (field : string) : list agg :=
  [ {| agg_name := "extended_stats_" +:+ field;
       agg_kind := "extended_stats"; agg_field := field |};
    {| agg_name := "percentiles_" +:+ field;
       agg_kind := "percentiles"; agg_field := field |} ].

(** [aggregations[name][key]] *)
Definition stat (aggregations : value) (name key : string) : result value :=
  rbind (py_getitem aggregations name) (λ a, py_getitem a key).

(** [aggregations['percentiles_'+field]['values'][key]] *)
Definition percentile (aggregations : value) (field key : string)
  : result value :=
  rbind (stat aggregations ("percentiles_" +:+ field) "values")
        (λ a, py_getitem a key).

(** The eight values of one field: count, mean, std, min, 25%, 50%, 75%,
    max *)
Definition field_values (aggregations : value) (field : string)
  : result (list value) :=
  let es := "extended_stats_" +:+ field in
  (v1 <- stat aggregations es "count" ;
   v2 <- stat aggregations es "avg" ;
   v3 <- stat aggregations es "std_deviation" ;
   v4 <- stat aggregations es "min" ;
   v5 <- percentile aggregations field "25.0" ;
   v6 <- percentile aggregations field "50.0" ;
   v7 <- percentile aggregations field "75.0" ;
   v8 <- stat aggregations es "max" ;
   ok [v1; v2; v3; v4; v5; v6; v7; v8])%result.

(** [values.count(None)] *)
Definition count_None (values : list value) : nat :=
  length (filter (λ v, is_None v = true) values).

(** The body of the second loop of [describe] *)
Definition collect (aggregations : value) (field : string)
    (results : list (string * list value))
  : result (list (string * list value)) :=
  (values <- field_values aggregations field ;
   if decide (count_None values < length values)%nat
   then ok (dict_set results field values)
   else ok results)%result.

(** The first loop of [describe]: the two [metric] calls of each field in
    turn, on a search that has no aggregations yet *)
Definition search_aggs (fields : list string) : list agg :=
  foldl agg_set [] (concat (metrics <$> fields)).

Definition describe (self : nat) : M Frame :=
  obj <- self_ self ;
  let numeric_source_fields := numeric_source_fields (mappings obj) in
  let aggs := search_aggs numeric_source_fields in
  aggregations <- ask (QExecute (client obj) (index_pattern obj) aggs)
                      (search_execute (client obj) (index_pattern obj) aggs) ;
  results <- lift (for_each numeric_source_fields (collect aggregations) []) ;
  ret (pd_DataFrame_of_dict results
         ["count"; "mean"; "std"; "min"; "25%"; "50%"; "75%"; "max"]).

Definition columns (self : nat) : M (list string) :=
  obj <- self_ self ;
  ret (source_fields (mappings obj)).

Definition __len__ (self : nat) : M Z :=
  obj <- self_ self ;
  ask (QCount (client obj) (index_pattern obj))
      (client_count (client obj) (index_pattern obj)).

(** The builtin [len(self)]: [__len__] must answer a size *)
Definition len (self : nat) : M Z :=
  n <- __len__ self ;
  if decide (n < 0) then throw (ValueError "__len__() should return >= 0")
  else if decide (maxsize < n)
       then throw (OverflowError "cannot fit 'int' into an index-sized integer")
       else ret n.

Definition shape (self : nat) : M (Z * Z) :=
  num_rows <- len self ;
  columns <- columns self ;
  let num_columns := Z.of_nat (length columns) in
  ret (num_rows, num_columns).

(** [self[item]]: a new frame, or [None] when the function runs off its
    end *)
Definition __getitem__ (self : nat) (item : item) : M (option nat) :=
  obj <- self_ self ;
  columns <-
    match item with
    | Item (VStr item) =>
        if negb (is_source_field (mappings obj) item)
        then throw (TypeError ("Column does not exist: [" +:+ item +:+ "]"))
        else ret ([] ++ [item])
    | ItemTuple names => ret ([] ++ names)
    | _ => ret []
    end ;
  if decide (0 < length columns)%nat then
    mappings <- lift (Mappings_of_columns (mappings obj) columns) ;
    df <- __init__ (client obj) (index_pattern obj) (Some mappings) None ;
    ret (Some df)
  else ret None.

End Methods.

(** *** Rendering

    What [to_string] calls and does not define, all of it pandas'.  With
    [head_rows] and [tail_rows] the two halves of [max_rows] that
    [to_string] computes,
    - [sparse_column col num_rows] is
      [pd.SparseArray(data=col, sparse_index=BlockIndex(num_rows,
      [0, num_rows-tail_rows], [head_rows, tail_rows]))];
    - [sparse_to_string d max_rows] is
      [pd.DataFrame(d).to_string(max_rows=max_rows)] for a dict [d] of
      such columns;
    - [frame_to_string df max_rows] is [df.to_string(max_rows=max_rows)]. *)
Class Rendering : Type := {
  sparse : Type;
  sparse_column : list cell → Z → result sparse;
  sparse_to_string : list (string * sparse) → Z → result string;
  frame_to_string : Frame → Z → result string
}.

Section RenderingMethods.
Context `{Collaborators} `{Rendering}.

Local Open Scope M_scope.

(** One item of the dict comprehension of [to_string] *)
Definition sparse_item (head : Frame) (num_rows : Z) (item : string)
    (d : list (string * sparse)) : result (list (string * sparse)) :=
  (col <- df_getitem head item ;
   column <- sparse_column col num_rows ;
   ok (dict_set d item column))%result.

Definition to_string (self : nat) : M string :=
  let max_rows := 60 in
  head <- head self max_rows ;
  num_rows <- len self ;
  if decide (max_rows < num_rows) then
    columns <- columns self ;
    d <- lift (for_each columns (sparse_item head num_rows) []) ;
    lift (sparse_to_string d max_rows)
  else lift (frame_to_string head max_rows).

Definition __repr__ (self : nat) : M string :=
  to_string self.

End RenderingMethods.
End DataFrame.

(** ** [MLModel] *)

Module MLModel.

(** What [ml_model.py] calls and does not define: [ensure_es_client] of
    [eland.common], and the client's [ml.delete_trained_model], which
    acts on the store's trained models and may raise. *)
Class MLClient : Type := {
  store : Type;
  ensure_es_client : Client → Client;
  delete_trained_model :
    Client → string → list Z → store → result value * store
}.

(** The attributes [__init__] sets *)
Record MLModelObj : Type := {
  _client : Client;
  _model_id : string
}.

(** How the client reports a model that is not there: the store answers
    404, which the client hands back as the response body when 404 is
    among [ignore], and raises as [NotFoundError] otherwise. *)
Inductive not_found : result value → Prop :=
  | not_found_ignored (body : value) : not_found (ok body)
  | not_found_raised : not_found (raise NotFoundError).

Section Methods.
Context `{MLClient}.

Definition __init__ (es_client : Client) (model_id : string) : MLModelObj :=
  {| _client := ensure_es_client es_client; _model_id := model_id |}.

(** [try: ... except elasticsearch.NotFoundError: pass] *)
Definition delete_model (self : MLModelObj) (s : store)
  : result value * store :=
  match delete_trained_model (_client self) (_model_id self) [404] s with
  | (inr _, s') => (ok VNone, s')
  | (inl NotFoundError, s') => (ok VNone, s')
  | (inl e, s') => (raise e, s')
  end.

End Methods.

(** *** A store to run against

    The trained models are a set of ids.  Deleting one that is there
    answers 200 and removes it; deleting one that is not answers 404.  The
    client raises on a status outside 2xx unless it is listed in
    [ignore], as elasticsearch-py does; [honour_ignore] switches the
    listing off. *)
Definition http_exception (status : Z) : exn :=
  if decide (status = 404) then NotFoundError else TransportError status.

Definition perform_request (honour_ignore : bool) (status : Z) (body : value)
    (ignore : list Z) : result value :=
  if decide (200 ≤ status < 300) then ok body
  else if honour_ignore && bool_decide (status ∈ ignore) then ok body
  else raise (http_exception status).

Definition set_client (honour_ignore : bool) : MLClient :=
  {| store := gset string;
     ensure_es_client := id;
     delete_trained_model := λ _ model_id ignore models,
       if decide (model_id ∈ models)
       then (perform_request honour_ignore 200
               (VDict [("acknowledged", VBool true)]) ignore,
             models ∖ {[model_id]})
       else (perform_request honour_ignore 404
               (VDict [("status", VInt 404)]) ignore,
             models) |}.

End MLModel.

(** ** Stores to run against *)

(** A [Mappings] read off a table of source fields and dtypes, and a list
    of numeric fields *)
Definition table_mappings (fields : list (string * string))
    (numeric : list string) : Mappings :=
  {| source_fields := fields.*1;
     numeric_source_fields := numeric;
     is_source_field := λ f, bool_decide (f ∈ fields.*1);
     source_field_pd_dtype := λ f,
       match dict_get fields f with
       | Some dtype => (true, dtype)
       | None => (false, "object")
       end |}.

(** The number a string of decimal digits writes *)
Fixpoint digits (s : string) (acc : Z) : option Z :=
  match s with
  | EmptyString => Some acc
  | String c s' =>
      let d := Z.of_nat (Ascii.nat_of_ascii c) - 48 in
      if decide (0 ≤ d ≤ 9) then digits s' (10 * acc + d) else None
  end.

(** The cast of pandas for columns of numbers that a float holds exactly:
    integers alone stay integers; numbers with [None] or NaN among them
    become floats, and the [None] NaN; any other column keeps its
    objects. *)
Definition is_int (c : cell) : bool :=
  match c with Cell (VInt _) => true | _ => false end.

Definition is_number (c : cell) : bool :=
  match c with Cell (VInt _) | Cell (VFloat _) => true | _ => false end.

Definition is_null (c : cell) : bool :=
  match c with Cell VNone | NaN => true | _ => false end.

Definition to_float (c : cell) : cell :=
  match c with
  | Cell (VInt n) => Cell (VFloat (inject_Z n))
  | Cell VNone => NaN
  | _ => c
  end.

Definition numbers_convert (col : list cell) (c : cell) : cell :=
  if forallb is_int col then c
  else if forallb (λ c, is_number c || is_null c) col && existsb is_number col
       then to_float c
       else c.

(** A store that holds [docs] under every index and answers every
    aggregation with [aggregations].  A date is a string of digits, the
    nanoseconds since the epoch, and nothing else parses; [astype] takes
    every column as it is, and the dtype of a new column is inferred as
    [numbers_convert] has it. *)
Definition fixed_store (schema : Mappings) (docs : list value)
    (aggregations : value) : Collaborators :=
  {| ed_Client := id;
     client_search := λ _ _ n,
       ok (VDict [("hits", VDict [("hits",
            VList ((λ d, VDict [("_source", d)])
                   <$> take (Z.to_nat n) docs))])]);
     client_count := λ _ _, ok (Z.of_nat (length docs));
     Mappings_of_index := λ _ _, ok schema;
     Mappings_of_columns := Mappings_narrow;
     search_execute := λ _ _ _, ok aggregations;
     to_datetime := λ v,
       match v with
       | VStr s =>
           match digits s 0 with
           | Some ns => ok (VTimestamp ns)
           | None => raise (PandasError "cannot parse")
           end
       | _ => raise (PandasError "cannot parse")
       end;
     astype := λ col _, ok col;
     convert_objects := numbers_convert |}.

(** The index of the docstring of [_es_results_to_pandas] *)
Definition nested_schema : Mappings :=
  table_mappings
    [("group", "object"); ("user.first", "object"); ("user.last", "object")] [].

Definition nested_doc : value :=
  VDict [("group", VStr "amsterdam");
         ("user",
          VList [VDict [("first", VStr "John"); ("last", VStr "Smith")];
                 VDict [("first", VStr "Alice"); ("last", VStr "White")]])].

(** A document of the same index whose [user.first] is a list in the
    first and in the third sub-document *)
Definition list_first_doc : value :=
  VDict [("user",
          VList [VDict [("first", VList [VStr "a"; VStr "b"])];
                 VDict [("first", VStr "c")];
                 VDict [("first", VList [VStr "d"; VStr "e"])]])].

(** An index with one field, of the kind the docstring calls a list *)
Definition tags_schema : Mappings :=
  table_mappings [("tags", "object")] [].

(** The index of the docstring of [DataFrame] *)
Definition reviews_schema : Mappings :=
  table_mappings
    [("reviewerId", "int64"); ("vendorId", "int64"); ("rating", "int64");
     ("date", "datetime64[ns]")]
    ["reviewerId"; "vendorId"; "rating"].

Definition reviews_docs : list value :=
  [ VDict [("vendorId", VInt 0); ("reviewerId", VInt 0); ("date", VStr "1144")];
    VDict [("reviewerId", VInt 1); ("vendorId", VInt 1)] ].

(** The answer for a field without values: a count of zero and nothing
    else *)
Definition empty_stats (field : string) : list (string * value) :=
  [ ("extended_stats_" +:+ field,
     VDict [("count", VInt 0); ("min", VNone); ("max", VNone); ("avg", VNone);
            ("sum", VInt 0); ("std_deviation", VNone)]);
    ("percentiles_" +:+ field,
     VDict [("values",
             VDict [("25.0", VNone); ("50.0", VNone); ("75.0", VNone)])]) ].

(** The same, the count null as well *)
Definition null_stats (field : string) : list (string * value) :=
  [ ("extended_stats_" +:+ field,
     VDict [("count", VNone); ("min", VNone); ("max", VNone); ("avg", VNone);
            ("sum", VNone); ("std_deviation", VNone)]);
    ("percentiles_" +:+ field,
     VDict [("values",
             VDict [("25.0", VNone); ("50.0", VNone); ("75.0", VNone)])]) ].

Definition rating_schema : Mappings :=
  table_mappings [("rating", "int64")] ["rating"].

Definition a_client : Client := EsClient "localhost:9200".

(** A world with one frame, made by [DataFrame(a_client, 'reviews')] *)
Definition one_frame (schema : Mappings) : world :=
  {| heap := [ {| client := a_client; index_pattern := "reviews";
                  mappings := schema; operations := [] |} ];
     queries := [] |}.

(** The store of the reviews, and what [head(5)] makes of it: the two
    documents in schema order, [rating] filled in, the date of the second
    document not a number *)
Definition reviews_store : Collaborators :=
  fixed_store reviews_schema reviews_docs VNone.

Definition reviews_head : Frame :=
  {| index := [LInt 0; LInt 1];
     data := [("reviewerId", [Cell (VInt 0); Cell (VInt 1)]);
              ("vendorId", [Cell (VInt 0); Cell (VInt 1)]);
              ("rating", [Cell VNone; Cell VNone]);
              ("date", [Cell (VTimestamp 1144); NaN])] |}.

(** The store whose one numeric field has no values *)
Definition rating_store : Collaborators :=
  fixed_store rating_schema [] (VDict (empty_stats "rating")).

Definition rating_frame : DataFrameObj :=
  {| client := a_client; index_pattern := "reviews";
     mappings := rating_schema; operations := [] |}.

Definition reviews_frame : DataFrameObj :=
  {| client := a_client; index_pattern := "reviews";
     mappings := reviews_schema; operations := [] |}.

(** A store as [S], but for the answers given: to searches, to counts, to
    aggregations, to [astype] *)
Definition with_search (S : Collaborators) (answer : result value)
  : Collaborators :=
  {| ed_Client := ed_Client; client_search := λ _ _ _, answer;
     client_count := client_count; Mappings_of_index := Mappings_of_index;
     Mappings_of_columns := Mappings_of_columns;
     search_execute := search_execute; to_datetime := to_datetime;
     astype := astype; convert_objects := convert_objects |}.

Definition with_count (S : Collaborators) (answer : result Z)
  : Collaborators :=
  {| ed_Client := ed_Client; client_search := client_search;
     client_count := λ _ _, answer; Mappings_of_index := Mappings_of_index;
     Mappings_of_columns := Mappings_of_columns;
     search_execute := search_execute; to_datetime := to_datetime;
     astype := astype; convert_objects := convert_objects |}.

Definition with_execute (S : Collaborators) (answer : result value)
  : Collaborators :=
  {| ed_Client := ed_Client; client_search := client_search;
     client_count := client_count; Mappings_of_index := Mappings_of_index;
     Mappings_of_columns := Mappings_of_columns;
     search_execute := λ _ _ _, answer; to_datetime := to_datetime;
     astype := astype; convert_objects := convert_objects |}.

Definition with_astype (S : Collaborators)
    (answer : list cell → string → result (list cell)) : Collaborators :=
  {| ed_Client := ed_Client; client_search := client_search;
     client_count := client_count; Mappings_of_index := Mappings_of_index;
     Mappings_of_columns := Mappings_of_columns;
     search_execute := search_execute; to_datetime := to_datetime;
     astype := answer; convert_objects := convert_objects |}.

Definition with_columns (S : Collaborators)
    (answer : Mappings → list string → result Mappings) : Collaborators :=
  {| ed_Client := ed_Client; client_search := client_search;
     client_count := client_count; Mappings_of_index := Mappings_of_index;
     Mappings_of_columns := answer;
     search_execute := search_execute; to_datetime := to_datetime;
     astype := astype; convert_objects := convert_objects |}.

Definition with_mappings (S : Collaborators) (answer : result Mappings)
  : Collaborators :=
  {| ed_Client := ed_Client; client_search := client_search;
     client_count := client_count; Mappings_of_index := λ _ _, answer;
     Mappings_of_columns := Mappings_of_columns;
     search_execute := search_execute; to_datetime := to_datetime;
     astype := astype; convert_objects := convert_objects |}.

(** [astype] as pandas has it for integers: a cell that is [None] or not a
    number cannot be cast *)
Definition strict_astype (col : list cell) (dtype : string)
  : result (list cell) :=
  if decide (dtype = "int64") then
    if forallb (λ c, match c with Cell (VInt _) => true | _ => false end) col
    then ok col
    else raise (TypeError "int() argument must be a number")
  else ok col.

(** A rendering that names the columns it was given.  A sparse column
    takes the 60 values that fill its two blocks of 30, and no other
    number of them. *)
Definition plain_rendering : DataFrame.Rendering :=
  {| DataFrame.sparse := list cell;
     DataFrame.sparse_column := λ col _,
       if decide (length col = 60%nat) then ok col
       else raise (ValueError "data does not fill the sparse index");
     DataFrame.sparse_to_string := λ d _, ok (String.concat "," d.*1);
     DataFrame.frame_to_string := λ df _,
       ok (String.concat "," (df_columns df)) |}.

(** A store of 61 reviews that have every field, and what [head(60)]
    makes of it *)
Definition full_review : value :=
  VDict [("reviewerId", VInt 1); ("vendorId", VInt 2); ("rating", VInt 5);
         ("date", VStr "1144")].

Definition many_store : Collaborators :=
  fixed_store reviews_schema (replicate 61 full_review) VNone.

Definition many_head : Frame :=
  {| index := LInt <$> seq 0 60;
     data := [("reviewerId", replicate 60 (Cell (VInt 1)));
              ("vendorId", replicate 60 (Cell (VInt 2)));
              ("rating", replicate 60 (Cell (VInt 5)));
              ("date", replicate 60 (Cell (VTimestamp 1144)))] |}.

(** The statistics of a field that has values *)
Definition some_stats (field : string) : list (string * value) :=
  [ ("extended_stats_" +:+ field,
     VDict [("count", VInt 3); ("min", VInt 1); ("max", VInt 5);
            ("avg", VInt 3); ("sum", VInt 9); ("std_deviation", VInt 2)]);
    ("percentiles_" +:+ field,
     VDict [("values",
             VDict [("25.0", VInt 2); ("50.0", VInt 3); ("75.0", VInt 4)])]) ].

(** The column of a source field in the frame made of the rows [rows]:
    when some row has the field, what pandas makes of the values of the
    rows, NaN standing for a row without it; and [None] all the way down
    when no row has the field *)
Definition reconciled_column `{Collaborators} (rows : list dict) (c : string)
  : list cell :=
  if decide (c ∈ union_keys rows)
  then pd_column ((λ row, cell_of row c) <$> rows)
  else replicate (length rows) (Cell VNone).

(** Whether [describe] keeps a field: its eight statistics are in the
    answer and not all of them are [None] *)
Definition kept (aggregations : value) (field : string) : bool :=
  match DataFrame.field_values aggregations field with
  | inr values =>
      bool_decide (DataFrame.count_None values < length values)%nat
  | inl _ => false
  end.

(** The column names a subscript asks for, when it is a name or a tuple
    of names *)
Definition names_of (item : item) : option (list string) :=
  match item with
  | Item (VStr name) => Some [name]
  | ItemTuple names => Some names
  | Item _ => None
  end.

(** The frame that [__getitem__] makes of the frame [obj] for the
    mappings [m] *)
Definition narrowed `{Collaborators} (obj : DataFrameObj) (m : Mappings)
  : DataFrameObj :=
  {| client := ed_Client (client obj); index_pattern := index_pattern obj;
     mappings := m; operations := [] |}.

(** The request [describe] sends for the frame [obj], and the labels of
    the rows of its answer *)
Definition stats_request (obj : DataFrameObj) : query :=
  QExecute (client obj) (index_pattern obj)
    (DataFrame.search_aggs (numeric_source_fields (mappings obj))).

Definition stats_labels : list string :=
  ["count"; "mean"; "std"; "min"; "25%"; "50%"; "75%"; "max"].

(** A store with two numeric fields, one with values and one without *)
Definition sales_schema : Mappings :=
  table_mappings [("price", "float64"); ("rating", "int64")]
    ["price"; "rating"].

Definition sales_stats : value :=
  VDict (null_stats "price" ++ some_stats "rating").

Definition sales_store : Collaborators :=
  fixed_store sales_schema [] sales_stats.

Definition sales_frame : DataFrameObj :=
  {| client := a_client; index_pattern := "reviews";
     mappings := sales_schema; operations := [] |}.

Definition sales_table : Frame :=
  {| index := LStr <$> stats_labels;
     data := [("rating", Cell <$> [VInt 3; VInt 3; VInt 2; VInt 1; VInt 2;
                                   VInt 3; VInt 4; VInt 5])] |}.

(** * Properties *)

(** ** Values, dicts and loops *)

(** One step of a computation whose first part has returned *)
Ltac step_ok := unfold ok at 1; cbn beta iota delta [rbind].

(** Induction on a value, with the hypothesis for every element of a list
    and every item of a dict *)
Lemma value_nested_ind (P : value → Prop) :
  P VNone →
  (∀ b, P (VBool b)) →
  (∀ n, P (VInt n)) →
  (∀ q, P (VFloat q)) →
  (∀ s, P (VStr s)) →
  (∀ xs, Forall P xs → P (VList xs)) →
  (∀ items, Forall (λ kv, P kv.2) items → P (VDict items)) →
  (∀ ns, P (VTimestamp ns)) →
  ∀ v, P v.
Proof.
  intros HNone HBool HInt HFloat HStr HList HDict HTime.
  fix IH 1. intros [ | b | n | q | s | xs | items | ns].
  1-5, 8: clear IH; auto.
  - apply HList. induction xs as [ | x xs IHxs]; constructor.
    + apply IH.
    + exact IHxs.
  - apply HDict. induction items as [ | [k x] items IHitems]; constructor.
    + apply IH.
    + exact IHitems.
Qed.

(** A value is not the one-element list of itself. *)
Lemma value_not_singleton_of_itself (v : value) : v ≠ VList [v].
Proof.
  induction v using value_nested_ind; try discriminate.
  intros Heq. injection Heq as Hxs.
  assert (Hall : Forall (λ v, v ≠ VList [v]) [VList xs]) by (by rewrite <- Hxs).
  apply Forall_cons in Hall as [Hv _]. apply Hv. by f_equal.
Qed.

Section DictLemmas.
Context {V : Type}.
Implicit Types (d : list (string * V)) (k : string) (v : V).

Lemma dict_get_set_eq d k v : dict_get (dict_set d k v) k = Some v.
Proof.
  induction d as [ | [k' v'] d IH]; simpl.
  - by rewrite decide_True.
  - destruct (decide (k' = k)) as [-> | Hne]; simpl.
    + by rewrite decide_True.
    + by rewrite decide_False.
Qed.

Lemma dict_get_set_ne d k k' v :
  k ≠ k' → dict_get (dict_set d k v) k' = dict_get d k'.
Proof.
  intros Hne. induction d as [ | [k0 v0] d IH]; simpl.
  - by rewrite decide_False.
  - destruct (decide (k0 = k)) as [-> | Hne0]; simpl.
    + by rewrite !decide_False.
    + by rewrite IH.
Qed.

Lemma dict_get_None d k : dict_get d k = None ↔ k ∉ dict_keys d.
Proof.
  unfold dict_keys. induction d as [ | [k' v'] d IH]; simpl.
  - split; [intros _; apply not_elem_of_nil | done].
  - rewrite not_elem_of_cons. destruct (decide (k' = k)) as [-> | Hne].
    + split; [done | intros [? _]; done].
    + rewrite IH. split; [intros ?; split; [done | done] | intros [_ ?]; done].
Qed.

Lemma dict_get_Some_key d k v : dict_get d k = Some v → k ∈ dict_keys d.
Proof.
  intros Hget. destruct (decide (k ∈ dict_keys d)) as [ | Hnot]; [done | ].
  apply dict_get_None in Hnot. congruence.
Qed.

Lemma dict_keys_set_old d k v :
  k ∈ dict_keys d → dict_keys (dict_set d k v) = dict_keys d.
Proof.
  unfold dict_keys. induction d as [ | [k' v'] d IH]; simpl.
  - intros Hin. by apply elem_of_nil in Hin.
  - intros Hin. destruct (decide (k' = k)) as [-> | Hne]; simpl; [done | ].
    f_equal. apply IH. apply elem_of_cons in Hin as [-> | ]; done.
Qed.

Lemma dict_keys_set_new d k v :
  k ∉ dict_keys d → dict_keys (dict_set d k v) = dict_keys d ++ [k].
Proof.
  unfold dict_keys. induction d as [ | [k' v'] d IH]; simpl; [done | ].
  intros Hnot. apply not_elem_of_cons in Hnot as [Hne Hnot].
  rewrite decide_False by done. simpl. f_equal. by apply IH.
Qed.

End DictLemmas.

Lemma rbind_ok {A B} (c : result A) (k : A → result B) (b : B) :
  rbind c k = ok b → ∃ a, c = ok a ∧ k a = ok b.
Proof. destruct c as [e | a]; simpl; [discriminate | eauto]. Qed.

Lemma for_each_app {A S} (xs ys : list A) (body : A → S → result S) (acc : S) :
  for_each (xs ++ ys) body acc
  = rbind (for_each xs body acc) (for_each ys body).
Proof.
  revert acc. induction xs as [ | x xs IH]; intros acc; simpl; [done | ].
  destruct (body x acc); simpl; [done | apply IH].
Qed.

(** ** Flattening is a left-to-right pass over the leaves *)

Section FlattenLemmas.
Context `{Collaborators}.
Variable mappings : Mappings.

Lemma flatten_leaf x name out dtype :
  path_dtype mappings name = (true, dtype) →
  flatten mappings x name out = emit x name dtype out.
Proof. intros Hpath. destruct x; simpl; by rewrite Hpath. Qed.

Lemma flatten_dict_node items name out dtype :
  path_dtype mappings name = (false, dtype) →
  flatten mappings (VDict items) name out =
  for_each items
    (λ kv out, flatten mappings kv.2 (name +:+ kv.1 +:+ ".") out) out.
Proof.
  intros Hpath. simpl. rewrite Hpath. revert out.
  induction items as [ | [a xa] items IH]; intros out; simpl; [done | ].
  destruct (flatten mappings xa _ out); simpl; [done | apply IH].
Qed.

Lemma flatten_list_node xs name out dtype :
  path_dtype mappings name = (false, dtype) →
  flatten mappings (VList xs) name out =
  for_each xs (λ a out, flatten mappings a name out) out.
Proof.
  intros Hpath. simpl. rewrite Hpath. revert out.
  induction xs as [ | a xs IH]; intros out; simpl; [done | ].
  destruct (flatten mappings a name out); simpl; [done | apply IH].
Qed.

Lemma flatten_scalar x name out dtype :
  path_dtype mappings name = (false, dtype) →
  is_list x = false → is_dict x = false →
  flatten mappings x name out = ok out.
Proof. intros Hpath ??. destruct x; simpl; by rewrite ?Hpath. Qed.

Lemma occurrences_leaf x name :
  (path_dtype mappings name).1 = true →
  occurrences mappings x name = [(drop_last name, x)].
Proof. intros Hpath. destruct x; simpl; by rewrite Hpath. Qed.

Lemma occurrences_dict_node items name :
  (path_dtype mappings name).1 = false →
  occurrences mappings (VDict items) name =
  concat ((λ kv, occurrences mappings kv.2 (name +:+ kv.1 +:+ ".")) <$> items).
Proof.
  intros Hpath. simpl. rewrite Hpath.
  induction items as [ | [a xa] items IH]; simpl; [done | by rewrite IH].
Qed.

Lemma occurrences_list_node xs name :
  (path_dtype mappings name).1 = false →
  occurrences mappings (VList xs) name =
  concat ((λ a, occurrences mappings a name) <$> xs).
Proof.
  intros Hpath. simpl. rewrite Hpath.
  induction xs as [ | a xs IH]; simpl; [done | by rewrite IH].
Qed.

Lemma occurrences_scalar x name :
  (path_dtype mappings name).1 = false →
  is_list x = false → is_dict x = false →
  occurrences mappings x name = [].
Proof. intros Hpath ??. destruct x; simpl; by rewrite ?Hpath. Qed.

(** The last branch of [flatten] coerces by the dtype of the field and
    merges. *)
Lemma emit_merge x name dtype out :
  path_dtype mappings name = (true, dtype) →
  emit x name dtype out =
  rbind (coerce mappings (drop_last name) x)
        (λ x', ok (merge out (drop_last name, x'))).
Proof.
  unfold path_dtype, emit, coerce, merge. intros Hpath.
  destruct (decide (name = "")) as [ | _]; [discriminate | ].
  rewrite Hpath. simpl.
  destruct (decide (dtype = "datetime64[ns]")) as [Hdate | Hdate]; simpl.
  - destruct (to_datetime x) as [err | x']; simpl; [done | ].
    destruct (dict_get out (drop_last name)) as [[] | ]; done.
  - destruct (dict_get out (drop_last name)) as [[] | ]; done.
Qed.

Lemma coerce_all_app kvs1 kvs2 :
  coerce_all mappings (kvs1 ++ kvs2) =
  rbind (coerce_all mappings kvs1) (λ l1,
    rbind (coerce_all mappings kvs2) (λ l2, ok (l1 ++ l2))).
Proof.
  induction kvs1 as [ | [f x] kvs1 IH]; simpl.
  - destruct (coerce_all mappings kvs2); done.
  - destruct (coerce mappings f x) as [e | x']; simpl; [done | ].
    rewrite IH. destruct (coerce_all mappings kvs1); simpl; [done | ].
    destruct (coerce_all mappings kvs2); done.
Qed.

Lemma pass_app kvs1 kvs2 out :
  pass mappings (kvs1 ++ kvs2) out =
  rbind (pass mappings kvs1 out) (pass mappings kvs2).
Proof.
  unfold pass. rewrite coerce_all_app.
  destruct (coerce_all mappings kvs1) as [e1 | l1]; simpl; [done | ].
  destruct (coerce_all mappings kvs2) as [e2 | l2]; simpl; [done | ].
  by rewrite foldl_app.
Qed.

Lemma for_each_pass {A} (xs : list A) (f : A → dict → result dict)
    (g : A → list (string * value)) out :
  Forall (λ a, ∀ out, f a out = pass mappings (g a) out) xs →
  for_each xs f out = pass mappings (concat (g <$> xs)) out.
Proof.
  intros Hall. revert out.
  induction Hall as [ | a xs Ha _ IH]; intros out; simpl; [done | ].
  rewrite pass_app, Ha.
  destruct (pass mappings (g a) out); simpl; [done | apply IH].
Qed.

Lemma flatten_pass x : ∀ name out,
  flatten mappings x name out = pass mappings (occurrences mappings x name) out.
Proof.
  induction x as [ | b | n | q | s | xs IH | items IH | ns]
    using value_nested_ind; intros name out;
    destruct (path_dtype mappings name) as [[] dtype] eqn:Hpath.
  all: try (rewrite (flatten_leaf _ _ _ _ Hpath), occurrences_leaf
              by (by rewrite Hpath);
            rewrite (emit_merge _ _ _ _ Hpath); unfold pass; simpl;
            by destruct (coerce mappings (drop_last name) _)).
  all: try (by rewrite (flatten_scalar _ _ _ _ Hpath), occurrences_scalar
              by (done || by rewrite Hpath)).
  - rewrite (flatten_list_node _ _ _ _ Hpath), occurrences_list_node
      by (by rewrite Hpath).
    apply for_each_pass. eapply Forall_impl; [exact IH | ]. by intros a Ha.
  - rewrite (flatten_dict_node _ _ _ _ Hpath), occurrences_dict_node
      by (by rewrite Hpath).
    apply (for_each_pass items _
             (λ kv, occurrences mappings kv.2 (name +:+ kv.1 +:+ "."))).
    eapply Forall_impl; [exact IH | ]. by intros kv Hkv.
Qed.

End FlattenLemmas.

(** ** What a row holds for a field *)

Lemma coalesce_app cur vs ws :
  coalesce (coalesce cur vs) ws = coalesce cur (vs ++ ws).
Proof.
  destruct vs as [ | v vs]; [done | ].
  destruct ws as [ | w ws]; [by rewrite app_nil_r | ].
  destruct cur as [c | ]; simpl.
  - destruct c; simpl; try done. by rewrite <- app_assoc.
  - destruct vs as [ | v2 vs]; simpl.
    + by destruct v.
    + destruct v; simpl; try done. by rewrite <- app_assoc.
Qed.

Lemma coalesce_several v1 v2 vs :
  is_list v1 = false →
  coalesce None (v1 :: v2 :: vs) = Some (VList (v1 :: v2 :: vs)).
Proof. by destruct v1. Qed.

Section MergeLemmas.
Implicit Types (out : dict) (f g : string) (x : value).

Lemma merge_get_eq out f x :
  dict_get (merge out (f, x)) f = coalesce (dict_get out f) [x].
Proof.
  unfold merge. simpl.
  destruct (dict_get out f) as [[] | ] eqn:Hget;
    by rewrite dict_get_set_eq.
Qed.

Lemma merge_get_ne out f g x :
  f ≠ g → dict_get (merge out (f, x)) g = dict_get out g.
Proof.
  intros Hne. unfold merge. simpl.
  destruct (dict_get out f) as [[] | ]; by rewrite dict_get_set_ne.
Qed.

Lemma foldl_merge_get kvs : ∀ out f,
  dict_get (foldl merge out kvs) f
  = coalesce (dict_get out f) (values_of f kvs).
Proof.
  unfold values_of.
  induction kvs as [ | [g x] kvs IH]; intros out f; simpl.
  - by destruct (dict_get out f) as [[] | ].
  - rewrite IH. rewrite filter_cons. simpl.
    destruct (decide (g = f)) as [-> | Hne]; simpl.
    + rewrite merge_get_eq. apply (coalesce_app _ [x]).
    + by rewrite merge_get_ne.
Qed.

End MergeLemmas.

Section CoerceLemmas.
Context `{Collaborators}.
Variable mappings : Mappings.

(** Coercion keeps the fields and their order. *)
Lemma coerce_all_values_of kvs : ∀ leaves f,
  coerce_all mappings kvs = ok leaves →
  Forall2 (λ x x', coerce mappings f x = ok x')
          (values_of f kvs) (values_of f leaves).
Proof.
  unfold values_of.
  induction kvs as [ | [g x] kvs IH]; intros leaves f; simpl.
  - intros [= <-]. constructor.
  - intros Hall. apply rbind_ok in Hall as (x' & Hx & Hall).
    apply rbind_ok in Hall as (rest & Hrest & [= <-]).
    rewrite !filter_cons. simpl.
    destruct (decide (g = f)) as [-> | Hne]; simpl; [constructor | ]; auto.
Qed.

Lemma flatten_dict_pass y :
  flatten_dict mappings y = pass mappings (occurrences mappings y "") [].
Proof. apply flatten_pass. Qed.

(** Flattening returns exactly when every leaf coerces. *)
Lemma flatten_dict_ok y out :
  flatten_dict mappings y = ok out ↔
  ∃ leaves, coerce_all mappings (occurrences mappings y "") = ok leaves
            ∧ out = foldl merge [] leaves.
Proof.
  rewrite flatten_dict_pass. unfold pass. split.
  - intros Hpass. apply rbind_ok in Hpass as (leaves & Hall & [= <-]). eauto.
  - intros (leaves & -> & ->). done.
Qed.

(** The cell of a field in a flattened row, from the raw leaves *)
Lemma flatten_dict_get y out f :
  flatten_dict mappings y = ok out →
  ∃ vs, Forall2 (λ x x', coerce mappings f x = ok x')
                (occurrences_of mappings y f) vs
        ∧ dict_get out f = coalesce None vs.
Proof.
  intros Hflat. apply flatten_dict_ok in Hflat as (leaves & Hall & ->).
  exists (values_of f leaves). split.
  - by apply coerce_all_values_of.
  - apply foldl_merge_get.
Qed.

Lemma flatten_dict_absent y out f :
  flatten_dict mappings y = ok out →
  occurrences_of mappings y f = [] →
  dict_get out f = None.
Proof.
  intros Hflat Hnone.
  destruct (flatten_dict_get _ _ f Hflat) as (vs & Hvs & ->).
  rewrite Hnone in Hvs. by apply Forall2_nil_inv_l in Hvs as ->.
Qed.

End CoerceLemmas.

(** ** Frames *)

Lemma elem_of_add_keys ks : ∀ acc k,
  k ∈ add_keys acc ks ↔ k ∈ acc ∨ k ∈ ks.
Proof.
  unfold add_keys. induction ks as [ | k0 ks IH]; intros acc k; simpl.
  - rewrite elem_of_nil. tauto.
  - rewrite IH, elem_of_cons. destruct (decide (k0 ∈ acc)) as [Hin | Hnot].
    + split; [tauto | ]. intros [? | [-> | ?]]; tauto.
    + rewrite elem_of_app, list_elem_of_singleton. tauto.
Qed.

Lemma elem_of_union_keys_acc rows : ∀ acc k,
  k ∈ foldl (λ acc row, add_keys acc (dict_keys row)) acc rows
  ↔ k ∈ acc ∨ ∃ row : dict, row ∈ rows ∧ k ∈ dict_keys row.
Proof.
  induction rows as [ | row rows IH]; intros acc k; simpl.
  - split; [tauto | ]. intros [? | (row & Hin & _)]; [done | ].
    by apply elem_of_nil in Hin.
  - rewrite IH, elem_of_add_keys. split.
    + intros [[? | ?] | (row' & ? & ?)]; [tauto | right .. ].
      * exists row. split; [left | done].
      * exists row'. split; [by right | done].
    + intros [? | (row' & Hin & ?)]; [tauto | ].
      apply elem_of_cons in Hin as [-> | ?]; [tauto | right; eauto].
Qed.

(** [pd.DataFrame(rows)] has a column for a key exactly when some row has
    the key. *)
Lemma elem_of_union_keys (rows : list dict) k :
  k ∈ union_keys rows ↔ ∃ row : dict, row ∈ rows ∧ k ∈ dict_keys row.
Proof.
  unfold union_keys. rewrite elem_of_union_keys_acc, elem_of_nil. tauto.
Qed.

Lemma df_columns_pd_DataFrame `{Collaborators} rows :
  df_columns (pd_DataFrame rows) = union_keys rows.
Proof.
  unfold df_columns, pd_DataFrame. simpl.
  rewrite <- list_fmap_compose. apply list_fmap_id.
Qed.

Lemma index_pd_DataFrame `{Collaborators} rows :
  length (index (pd_DataFrame rows)) = length rows.
Proof. unfold pd_DataFrame. simpl. by rewrite length_fmap, length_seq. Qed.

(** Every row of a frame names the columns of the frame, in their order. *)
Lemma df_rows_columns df :
  Forall (λ row : list (string * cell), row.*1 = df_columns df) (df_rows df).
Proof.
  unfold df_rows, df_row, df_columns. apply Forall_fmap, Forall_forall.
  intros i _. simpl. rewrite <- list_fmap_compose. done.
Qed.

Lemma df_rows_length df : length (df_rows df) = length (index df).
Proof. unfold df_rows. by rewrite length_fmap, length_seq. Qed.

(** Selecting names yields those names, each with the column it names. *)
Lemma select_columns_ok cols names : ∀ sel,
  select_columns cols names = ok sel →
  sel.*1 = names ∧ Forall (λ col, dict_get cols col.1 = Some col.2) sel.
Proof.
  induction names as [ | c names IH]; intros sel; simpl.
  - intros [= <-]. by split.
  - destruct (dict_get cols c) as [xs | ] eqn:Hget; [ | discriminate].
    intros Hsel. apply rbind_ok in Hsel as (rest & Hrest & [= <-]).
    destruct (IH _ Hrest) as [<- Hall]. split; [done | ].
    constructor; [done | exact Hall].
Qed.

Lemma select_columns_returns cols names :
  Forall (λ c, is_Some (dict_get cols c)) names →
  ∃ sel, select_columns cols names = ok sel.
Proof.
  induction 1 as [ | c names [xs Hget] _ [rest Hrest]]; simpl; [by eexists | ].
  rewrite Hget, Hrest. by eexists.
Qed.

Lemma df_getitem_list_ok df names df' :
  df_getitem_list df names = ok df' →
  index df' = index df ∧ df_columns df' = names
  ∧ Forall (λ col, dict_get (data df) col.1 = Some col.2) (data df').
Proof.
  unfold df_getitem_list. intros Hsel.
  apply rbind_ok in Hsel as (sel & Hsel & [= <-]).
  apply select_columns_ok in Hsel as [? ?]. done.
Qed.

(** ** Reconciling the rows with the columns *)

Section ResultsLemmas.
Context `{Collaborators}.
Variable mappings : Mappings.

Lemma df_getitem_setitem df c v :
  df_getitem (df_setitem df c v) c
  = ok (replicate (length (index df)) (Cell v)).
Proof. unfold df_getitem, df_setitem. simpl. by rewrite dict_get_set_eq. Qed.

(** One missing column: the frame with the column of [None], unless
    [astype] raises. *)
Lemma fill_missing_ok missing df df' :
  fill_missing mappings missing df = ok df' →
  df' = df_setitem df missing VNone.
Proof.
  unfold fill_missing.
  destruct (source_field_pd_dtype mappings missing) as [isf dtype].
  rewrite df_getitem_setitem. simpl.
  destruct (astype _ dtype); simpl; [discriminate | ]. by intros [= <-].
Qed.

Lemma fill_missing_returns missing df :
  (∀ n dtype, ∃ col, astype (replicate n (Cell VNone)) dtype = ok col) →
  fill_missing mappings missing df = ok (df_setitem df missing VNone).
Proof.
  intros Hastype. unfold fill_missing.
  destruct (source_field_pd_dtype mappings missing) as [isf dtype].
  rewrite df_getitem_setitem. simpl.
  destruct (Hastype (length (index df)) dtype) as [col ->]. done.
Qed.

Lemma for_each_fill_missing_ok cs : ∀ df df',
  for_each cs (fill_missing mappings) df = ok df' →
  index df' = index df ∧
  ∀ c, dict_get (data df') c
       = if decide (c ∈ cs)
         then Some (replicate (length (index df)) (Cell VNone))
         else dict_get (data df) c.
Proof.
  induction cs as [ | c0 cs IH]; intros df df'; cbn [for_each].
  - intros [= <-]. split; [done | ]. intros c.
    rewrite decide_False; [done | apply not_elem_of_nil].
  - intros Hloop. apply rbind_ok in Hloop as (df1 & Hfill & Hloop).
    apply fill_missing_ok in Hfill as ->.
    destruct (IH _ _ Hloop) as [Hindex Hdata]. split; [done | ].
    intros c. rewrite Hdata. cbn [df_setitem index data].
    destruct (decide (c ∈ cs)) as [Hin | Hnot].
    + rewrite decide_True; [done | by right].
    + destruct (decide (c0 = c)) as [-> | Hne].
      * rewrite decide_True by left. apply dict_get_set_eq.
      * rewrite decide_False; [by apply dict_get_set_ne | ].
        rewrite elem_of_cons. intros [? | ?]; [congruence | done].
Qed.

Lemma for_each_fill_missing_returns cs : ∀ df,
  (∀ n dtype, ∃ col, astype (replicate n (Cell VNone)) dtype = ok col) →
  ∃ df', for_each cs (fill_missing mappings) df = ok df'.
Proof.
  intros df Hastype. revert df.
  induction cs as [ | c cs IH]; intros df; simpl; [by eexists | ].
  rewrite fill_missing_returns by done. simpl. apply IH.
Qed.

Lemma elem_of_missing_columns columns df c :
  c ∈ missing_columns columns df ↔ c ∈ columns ∧ c ∉ df_columns df.
Proof.
  unfold missing_columns.
  rewrite elem_of_elements, elem_of_difference, !elem_of_list_to_set. done.
Qed.

(** The first loop: one flattened row for each hit, in order *)
Lemma for_each_append_row_ok hits : ∀ acc rows,
  for_each hits (append_row mappings) acc = ok rows →
  ∃ new, rows = acc ++ new ∧
    Forall2 (λ hit row, ∃ doc, py_getitem hit "_source" = ok doc
                               ∧ flatten_dict mappings doc = ok row)
            hits new.
Proof.
  induction hits as [ | hit hits IH]; intros acc rows; simpl.
  - intros [= <-]. exists []. by rewrite app_nil_r.
  - intros Hloop. apply rbind_ok in Hloop as (acc1 & Hrow & Hloop).
    unfold append_row in Hrow.
    apply rbind_ok in Hrow as (doc & Hdoc & Hrow).
    apply rbind_ok in Hrow as (out & Hout & [= <-]).
    destruct (IH _ _ Hloop) as (new & -> & Hall).
    exists (out :: new). rewrite <- app_assoc. split; [done | ].
    constructor; [eauto | done].
Qed.

Lemma for_each_documents_ok hits : ∀ acc docs,
  for_each hits (λ hit docs, rbind (py_getitem hit "_source")
                               (λ doc, ok (docs ++ [doc]))) acc = ok docs →
  ∃ new, docs = acc ++ new ∧
    Forall2 (λ hit doc, py_getitem hit "_source" = ok doc) hits new.
Proof.
  induction hits as [ | hit hits IH]; intros acc docs; simpl.
  - intros [= <-]. exists []. by rewrite app_nil_r.
  - intros Hloop. apply rbind_ok in Hloop as (acc1 & Hdoc & Hloop).
    apply rbind_ok in Hdoc as (doc & Hdoc & [= <-]).
    destruct (IH _ _ Hloop) as (new & -> & Hall).
    exists (doc :: new). rewrite <- app_assoc. split; [done | ].
    by constructor.
Qed.

(** What [_es_results_to_pandas] returns, step by step *)
Lemma _es_results_to_pandas_ok results df :
  _es_results_to_pandas mappings results = ok df →
  ∃ hits rows filled,
    hits_of results = ok hits
    ∧ for_each hits (append_row mappings) [] = ok rows
    ∧ for_each (missing_columns (source_fields mappings) (pd_DataFrame rows))
               (fill_missing mappings) (pd_DataFrame rows) = ok filled
    ∧ df_getitem_list filled (source_fields mappings) = ok df.
Proof.
  unfold _es_results_to_pandas, hits_of. intros Hres.
  apply rbind_ok in Hres as (h1 & Hh1 & Hres).
  apply rbind_ok in Hres as (h2 & Hh2 & Hres).
  apply rbind_ok in Hres as (hits & Hhits & Hres).
  apply rbind_ok in Hres as (rows & Hrows & Hres).
  apply rbind_ok in Hres as (filled & Hfilled & Hres).
  exists hits, rows, filled. rewrite Hh1. simpl. rewrite Hh2. simpl.
  done.
Qed.

(** The columns of the frame are the source fields, in their order. *)
Lemma _es_results_to_pandas_columns results df :
  _es_results_to_pandas mappings results = ok df →
  df_columns df = source_fields mappings.
Proof.
  intros Hres.
  apply _es_results_to_pandas_ok in Hres as (? & ? & filled & _ & _ & _ & Hsel).
  by apply df_getitem_list_ok in Hsel as (_ & ? & _).
Qed.

(** The frame has a row for each hit. *)
Lemma _es_results_to_pandas_index results df :
  _es_results_to_pandas mappings results = ok df →
  ∃ hits, hits_of results = ok hits ∧ length (index df) = length hits.
Proof.
  intros Hres.
  apply _es_results_to_pandas_ok
    in Hres as (hits & rows & filled & Hhits & Hrows & Hfill & Hsel).
  exists hits. split; [done | ].
  apply df_getitem_list_ok in Hsel as (-> & _ & _).
  apply for_each_fill_missing_ok in Hfill as [-> _].
  rewrite index_pd_DataFrame.
  apply for_each_append_row_ok in Hrows as (new & -> & Hall).
  simpl. symmetry. by eapply Forall2_length.
Qed.

(** A source field that no document has is a column of [None]. *)
Lemma _es_results_to_pandas_null_column results docs df f :
  _es_results_to_pandas mappings results = ok df →
  documents results = ok docs →
  Forall (λ doc, occurrences_of mappings doc f = []) docs →
  f ∈ source_fields mappings →
  Forall (λ col, col.1 = f →
                 col.2 = replicate (length (index df)) (Cell VNone))
         (data df).
Proof.
  intros Hres Hdocs Habsent Hfield.
  apply _es_results_to_pandas_ok
    in Hres as (hits & rows & filled & Hhits & Hrows & Hfill & Hsel).
  unfold documents in Hdocs. rewrite Hhits in Hdocs. simpl in Hdocs.
  apply for_each_documents_ok in Hdocs as (docs' & -> & Hdocs).
  apply for_each_append_row_ok in Hrows as (rows' & -> & Hrows).
  simpl in *.
  (* no row has the field *)
  assert (Hrowsf : Forall (λ row : dict, dict_get row f = None) rows').
  { clear Hfill Hsel Hhits. revert docs' Hdocs Habsent.
    induction Hrows as [ | hit row hits rows' (doc & Hdoc & Hflat) _ IH];
      intros docs' Hdocs Habsent; [constructor | ].
    apply Forall2_cons_inv_l in Hdocs as (doc' & docs'' & Hdoc' & Hdocs & ->).
    apply Forall_cons in Habsent as [Hnone Habsent].
    constructor; [ | by eapply IH].
    assert (doc' = doc) as -> by (unfold ok in *; congruence).
    by eapply flatten_dict_absent. }
  (* so it is among the missing columns *)
  assert (Hmissing : f ∈ missing_columns (source_fields mappings)
                                         (pd_DataFrame rows')).
  { apply elem_of_missing_columns. split; [done | ].
    rewrite df_columns_pd_DataFrame, elem_of_union_keys.
    intros (row & Hrow & Hkey).
    rewrite Forall_forall in Hrowsf. apply Hrowsf in Hrow.
    by apply dict_get_None in Hrow. }
  apply for_each_fill_missing_ok in Hfill as [Hindex Hdata].
  apply df_getitem_list_ok in Hsel as (Hindex' & _ & Hall).
  eapply Forall_impl; [exact Hall | ]. intros [c xs]. simpl.
  intros Hget ->. rewrite Hdata, decide_True in Hget by done.
  rewrite Hindex', Hindex. congruence.
Qed.

End ResultsLemmas.

Section ResultsReturn.
Context `{Collaborators}.
Variable mappings : Mappings.

Lemma for_each_append_row_returns hits : ∀ docs acc,
  Forall2 (λ hit doc, py_getitem hit "_source" = ok doc) hits docs →
  Forall (λ doc, ∃ leaves,
            coerce_all mappings (occurrences mappings doc "") = ok leaves)
         docs →
  ∃ rows, for_each hits (append_row mappings) acc = ok rows.
Proof.
  induction hits as [ | hit hits IH]; intros docs acc Hdocs Hcoerce; simpl.
  - by eexists.
  - apply Forall2_cons_inv_l in Hdocs as (doc & docs' & Hdoc & Hdocs & ->).
    apply Forall_cons in Hcoerce as [(leaves & Hleaves) Hcoerce].
    unfold append_row at 1. rewrite Hdoc. simpl.
    assert (Hflat : flatten_dict mappings doc = ok (foldl merge [] leaves))
      by (apply flatten_dict_ok; eauto).
    rewrite Hflat. simpl. by eapply IH.
Qed.

(** [_es_results_to_pandas] returns a frame when the result has its hits
    and their sources, every date in them parses, and [astype] takes a
    column of [None]. *)
Lemma _es_results_to_pandas_returns results docs :
  documents results = ok docs →
  Forall (λ doc, ∃ leaves,
            coerce_all mappings (occurrences mappings doc "") = ok leaves)
         docs →
  (∀ n dtype, ∃ col, astype (replicate n (Cell VNone)) dtype = ok col) →
  ∃ df, _es_results_to_pandas mappings results = ok df.
Proof.
  intros Hdocs Hcoerce Hastype. unfold documents in Hdocs.
  apply rbind_ok in Hdocs as (hits & Hhits & Hdocs).
  apply for_each_documents_ok in Hdocs as (docs' & -> & Hdocs).
  destruct (for_each_append_row_returns hits docs' [] Hdocs Hcoerce)
    as [rows Hrows].
  set (df0 := pd_DataFrame rows).
  destruct (for_each_fill_missing_returns mappings
              (missing_columns (source_fields mappings) df0) df0 Hastype)
    as [filled Hfilled].
  assert (Hsel : ∃ sel, select_columns (data filled) (source_fields mappings)
                        = ok sel).
  { apply select_columns_returns, Forall_forall. intros c Hc.
    apply for_each_fill_missing_ok in Hfilled as [_ Hdata]. rewrite Hdata.
    destruct (decide (c ∈ missing_columns _ df0)) as [ | Hnot]; [by eexists | ].
    destruct (dict_get (data df0) c) as [xs | ] eqn:Hget; [by eexists | ].
    apply dict_get_None in Hget. destruct Hnot.
    by apply elem_of_missing_columns. }
  destruct Hsel as [sel Hsel].
  exists {| index := index filled; data := sel |}.
  unfold _es_results_to_pandas. unfold hits_of in Hhits.
  destruct (py_getitem results "hits") as [ | h1]; [discriminate | ].
  simpl in *.
  destruct (py_getitem h1 "hits") as [ | h2]; [discriminate | ].
  simpl in *. rewrite Hhits. simpl. rewrite Hrows. simpl.
  fold df0. rewrite Hfilled. simpl.
  unfold df_getitem_list. by rewrite Hsel.
Qed.

End ResultsReturn.

(** ** The methods of [DataFrame] *)

Section MethodLemmas.
Context `{Collaborators}.
Implicit Types (self : nat) (obj : DataFrameObj) (w : world).

Lemma head_run self obj n w :
  heap w !! self = Some obj →
  DataFrame.head self n w
  = (rbind (client_search (client obj) (index_pattern obj) n)
           (_es_results_to_pandas (mappings obj)),
     asked w (QSearch (client obj) (index_pattern obj) n)).
Proof.
  intros Hself. unfold DataFrame.head, bind, self_, ask, lift.
  rewrite Hself. step_ok.
  by destruct (client_search (client obj) _ n).
Qed.

End MethodLemmas.

(** ** Column order and null fill *)

(** C4.  Whatever documents the store returns, the frame that [head]
    produces has the source fields of the schema as its columns, in the
    order of the schema, and so has every row of it. *)
Theorem head_column_order `{Collaborators} (self : nat) (obj : DataFrameObj)
    (n : Z) (w w' : world) (df : Frame) :
  heap w !! self = Some obj →
  DataFrame.head self n w = (ok df, w') →
  df_columns df = source_fields (mappings obj)
  ∧ Forall (λ row : list (string * cell), row.*1 = source_fields (mappings obj))
           (df_rows df).
Proof.
  intros Hself Hhead. rewrite (head_run _ _ _ _ Hself) in Hhead.
  injection Hhead as Hres _.
  apply rbind_ok in Hres as (results & _ & Hres).
  apply _es_results_to_pandas_columns in Hres.
  split; [done | ]. rewrite <- Hres. apply df_rows_columns.
Qed.

Lemma head_column_order_witness :
  heap (one_frame reviews_schema) !! 0%nat
  = Some {| client := a_client; index_pattern := "reviews";
            mappings := reviews_schema; operations := [] |}
  ∧ DataFrame.head (H := reviews_store) 0 5 (one_frame reviews_schema)
    = (ok reviews_head,
       asked (one_frame reviews_schema) (QSearch a_client "reviews" 5))
  ∧ df_columns reviews_head = ["reviewerId"; "vendorId"; "rating"; "date"]
  ∧ Forall (λ row : list (string * cell),
              row.*1 = ["reviewerId"; "vendorId"; "rating"; "date"])
           (df_rows reviews_head).
Proof.
  split; [reflexivity | ]. split; [vm_compute; reflexivity | ].
  apply (head_column_order (H := reviews_store) 0
           {| client := a_client; index_pattern := "reviews";
              mappings := reviews_schema; operations := [] |}
           5 (one_frame reviews_schema)
           (asked (one_frame reviews_schema) (QSearch a_client "reviews" 5))
           reviews_head).
  - reflexivity.
  - vm_compute; reflexivity.
Defined.

(** [head] returns a frame when the store answers with hits that have
    their sources, every date in them parses, and [astype] takes a column
    of [None]. *)
Lemma head_returns `{Collaborators} (self : nat) (obj : DataFrameObj) (n : Z)
    (w : world) (results : value) (docs : list value) :
  heap w !! self = Some obj →
  client_search (client obj) (index_pattern obj) n = ok results →
  documents results = ok docs →
  Forall (λ doc, ∃ leaves,
            coerce_all (mappings obj) (occurrences (mappings obj) doc "")
            = ok leaves) docs →
  (∀ k dtype, ∃ col, astype (replicate k (Cell VNone)) dtype = ok col) →
  ∃ df, DataFrame.head self n w
        = (ok df, asked w (QSearch (client obj) (index_pattern obj) n)).
Proof.
  intros Hself Hsearch Hdocs Hcoerce Hastype.
  destruct (_es_results_to_pandas_returns (mappings obj) results docs)
    as [df Hdf]; [done .. | ].
  exists df. rewrite (head_run _ _ _ _ Hself), Hsearch. simpl. by rewrite Hdf.
Qed.

(** When [head] returns a frame, a source field of the schema that occurs
    in none of the fetched documents is in every row of it, with [None] as
    its value.  [head] returns one only when [astype] takes the column of
    [None] for the dtype of the field. *)
Lemma head_null_fill_of_returned `{Collaborators} (self : nat)
    (obj : DataFrameObj) (n : Z) (w w' : world) (results : value)
    (docs : list value) (df : Frame) (f : string) :
  heap w !! self = Some obj →
  client_search (client obj) (index_pattern obj) n = ok results →
  documents results = ok docs →
  DataFrame.head self n w = (ok df, w') →
  f ∈ source_fields (mappings obj) →
  Forall (λ doc, occurrences_of (mappings obj) doc f = []) docs →
  Forall (λ row : list (string * cell),
            f ∈ row.*1 ∧ ∀ c, (f, c) ∈ row → c = Cell VNone)
         (df_rows df).
Proof.
  intros Hself Hsearch Hdocs Hhead Hfield Habsent.
  rewrite (head_run _ _ _ _ Hself), Hsearch in Hhead.
  injection Hhead as Hres _. simpl in Hres.
  pose proof (_es_results_to_pandas_null_column _ _ _ _ f Hres Hdocs Habsent
                Hfield) as Hnull.
  pose proof (df_rows_columns df) as Hcols.
  rewrite (_es_results_to_pandas_columns _ _ _ Hres) in Hcols.
  rewrite Forall_forall in Hcols. apply Forall_forall. intros row Hrow.
  split; [by rewrite (Hcols _ Hrow) | ].
  unfold df_rows in Hrow. apply list_elem_of_fmap in Hrow as (i & -> & Hi).
  apply elem_of_seq in Hi as [_ Hi]. simpl in Hi.
  intros c Hc. unfold df_row in Hc.
  apply list_elem_of_fmap in Hc as ([f' xs] & Heq & Hcol).
  simpl in Heq. injection Heq as <- ->.
  rewrite Forall_forall in Hnull. specialize (Hnull _ Hcol eq_refl).
  simpl in Hnull. rewrite Hnull, lookup_replicate_2 by done. done.
Qed.


(** ** Single and repeated fields *)

(** C6.  A field that the traversal of a document meets exactly once is
    mapped to its value, coerced by the dtype of the field and not wrapped
    in a one-element list; when that value is no list, the row holds no
    list for the field.  Flattening returns, given that every date of the
    document parses. *)
Theorem flatten_dict_single_occurrence `{Collaborators} (mappings : Mappings)
    (y : value) (f : string) (v : value) (leaves : list (string * value)) :
  coerce_all mappings (occurrences mappings y "") = ok leaves →
  occurrences_of mappings y f = [v] →
  ∃ out v', flatten_dict mappings y = ok out
            ∧ coerce mappings f v = ok v'
            ∧ dict_get out f = Some v'
            ∧ dict_get out f ≠ Some (VList [v'])
            ∧ (is_list v' = false → ∀ l, dict_get out f ≠ Some (VList l)).
Proof.
  intros Hleaves Hone.
  assert (Hflat : flatten_dict mappings y = ok (foldl merge [] leaves))
    by (apply flatten_dict_ok; eauto).
  destruct (flatten_dict_get _ _ _ f Hflat) as (vs & Hvs & Hget).
  rewrite Hone in Hvs.
  apply Forall2_cons_inv_l in Hvs as (v' & vs' & Hv' & Hnil & ->).
  apply Forall2_nil_inv_l in Hnil as ->.
  exists (foldl merge [] leaves), v'. rewrite Hget. simpl.
  repeat split; try done.
  - intros [= Heq]. by apply value_not_singleton_of_itself in Heq.
  - intros Hscalar l [= ->]. discriminate.
Qed.

Lemma flatten_dict_single_occurrence_witness :
  ∃ out v', flatten_dict (H := reviews_store) reviews_schema
              (VDict [("vendorId", VInt 0); ("reviewerId", VInt 0);
                      ("date", VStr "1144")]) = ok out
            ∧ coerce (H := reviews_store) reviews_schema "date" (VStr "1144")
              = ok v'
            ∧ dict_get out "date" = Some v'
            ∧ dict_get out "date" ≠ Some (VList [v'])
            ∧ (is_list v' = false →
               ∀ l, dict_get out "date" ≠ Some (VList l)).
Proof.
  apply (flatten_dict_single_occurrence (H := reviews_store) reviews_schema _
           "date" (VStr "1144")
           [("vendorId", VInt 0); ("reviewerId", VInt 0);
            ("date", VTimestamp 1144)]).
  - vm_compute; reflexivity.
  - vm_compute; reflexivity.
Defined.

(** A raw value that is a list is one leaf and is stored as it is, be it
    of one element; when it comes first, the values that follow are
    appended to it, and when it comes later it is appended whole. *)
Lemma flatten_dict_raw_lists `{Collaborators} :
  flatten_dict tags_schema (VDict [("tags", VList [VStr "a"])])
  = ok [("tags", VList [VStr "a"])]
  ∧ flatten_dict nested_schema
      (VDict [("user", VList [VDict [("first", VList [VStr "a"; VStr "b"])];
                              VDict [("first", VStr "c")]])])
    = ok [("user.first", VList [VStr "a"; VStr "b"; VStr "c"])]
  ∧ flatten_dict nested_schema
      (VDict [("user", VList [VDict [("first", VStr "c")];
                              VDict [("first", VList [VStr "a"; VStr "b"])]])])
    = ok [("user.first", VList [VStr "c"; VList [VStr "a"; VStr "b"]])].
Proof. repeat split. Qed.

(** C3, as the code has it.  A field that the traversal of a document
    meets twice or more, the first of its values being no list itself, is
    mapped to the list of its values, coerced by the dtype of the field, in
    the order of the traversal; and the document of the docstring flattens
    to one row with [group], [user.first] and [user.last]. *)
Theorem flatten_dict_coalesces `{Collaborators} :
  (∀ (mappings : Mappings) (y : value) (f : string) (v1 v2 : value)
     (vs : list value) (leaves : list (string * value)),
     coerce_all mappings (occurrences mappings y "") = ok leaves →
     occurrences_of mappings y f = v1 :: v2 :: vs →
     ∃ out v1' v2' vs',
       flatten_dict mappings y = ok out
       ∧ Forall2 (λ x x', coerce mappings f x = ok x')
                 (v1 :: v2 :: vs) (v1' :: v2' :: vs')
       ∧ (is_list v1' = false →
          dict_get out f = Some (VList (v1' :: v2' :: vs'))))
  ∧ flatten_dict nested_schema nested_doc
    = ok [("group", VStr "amsterdam");
          ("user.first", VList [VStr "John"; VStr "Alice"]);
          ("user.last", VList [VStr "Smith"; VStr "White"])].
Proof.
  split; [ | reflexivity].
  intros mappings y f v1 v2 vs leaves Hleaves Hmany.
  assert (Hflat : flatten_dict mappings y = ok (foldl merge [] leaves))
    by (apply flatten_dict_ok; eauto).
  destruct (flatten_dict_get _ _ _ f Hflat) as (ws & Hws & Hget).
  rewrite Hmany in Hws. pose proof Hws as Hall.
  apply Forall2_cons_inv_l in Hws as (v1' & ws1 & _ & Hws & ->).
  apply Forall2_cons_inv_l in Hws as (v2' & vs' & _ & _ & ->).
  exists (foldl merge [] leaves), v1', v2', vs'. repeat split; try done.
  intros Hscalar. rewrite Hget. by apply coalesce_several.
Qed.

Lemma flatten_dict_coalesces_witness :
  ∃ out v1' v2' vs',
    flatten_dict (H := reviews_store) nested_schema nested_doc = ok out
    ∧ Forall2 (λ x x', coerce (H := reviews_store) nested_schema "user.first" x
                       = ok x')
              [VStr "John"; VStr "Alice"] (v1' :: v2' :: vs')
    ∧ (is_list v1' = false →
       dict_get out "user.first" = Some (VList (v1' :: v2' :: vs'))).
Proof.
  apply (proj1 (flatten_dict_coalesces (H := reviews_store)) nested_schema
           nested_doc "user.first" (VStr "John") (VStr "Alice") []
           [("group", VStr "amsterdam"); ("user.first", VStr "John");
            ("user.last", VStr "Smith"); ("user.first", VStr "Alice");
            ("user.last", VStr "White")]).
  - vm_compute; reflexivity.
  - vm_compute; reflexivity.
Defined.

(** C3, as it is stated, fails: the traversal meets [user.first] three
    times, with the values [["a", "b"]], ["c"] and [["d", "e"]]; the first,
    a list, is extended by the second and takes the third whole, so the
    column is neither the list of the three values nor the flat list of
    what they hold. *)
Lemma flatten_dict_extends_first_list :
  occurrences_of nested_schema list_first_doc "user.first"
  = [VList [VStr "a"; VStr "b"]; VStr "c"; VList [VStr "d"; VStr "e"]]
  ∧ flatten_dict (H := reviews_store) nested_schema list_first_doc
    = ok [("user.first",
           VList [VStr "a"; VStr "b"; VStr "c"; VList [VStr "d"; VStr "e"]])]
  ∧ VList [VStr "a"; VStr "b"; VStr "c"; VList [VStr "d"; VStr "e"]]
    ≠ VList [VList [VStr "a"; VStr "b"]; VStr "c";
             VList [VStr "d"; VStr "e"]]
  ∧ VList [VStr "a"; VStr "b"; VStr "c"; VList [VStr "d"; VStr "e"]]
    ≠ VList [VStr "a"; VStr "b"; VStr "c"; VStr "d"; VStr "e"].
Proof.
  split; [vm_compute; reflexivity | ].
  split; [vm_compute; reflexivity | ].
  split; discriminate.
Qed.

(** ** Shape *)

Section ShapeLemmas.
Context `{Collaborators}.
Implicit Types (self : nat) (obj : DataFrameObj) (w : world).

Lemma len_run self obj w rows :
  heap w !! self = Some obj →
  client_count (client obj) (index_pattern obj) = ok rows →
  0 ≤ rows ≤ maxsize →
  DataFrame.len self w
  = (ok rows, asked w (QCount (client obj) (index_pattern obj))).
Proof.
  intros Hself Hcount [Hlo Hhi].
  unfold DataFrame.len, DataFrame.__len__, bind, self_, ask.
  rewrite Hself. step_ok. rewrite Hcount.
  step_ok.
  rewrite !decide_False by lia. done.
Qed.

Lemma shape_run self obj w rows :
  heap w !! self = Some obj →
  client_count (client obj) (index_pattern obj) = ok rows →
  0 ≤ rows ≤ maxsize →
  DataFrame.shape self w
  = (ok (rows, Z.of_nat (length (source_fields (mappings obj)))),
     asked w (QCount (client obj) (index_pattern obj))).
Proof.
  intros Hself Hcount Hrange. unfold DataFrame.shape, bind.
  rewrite (len_run _ _ _ _ Hself Hcount Hrange).
  step_ok.
  unfold DataFrame.columns, bind, self_, ret. simpl. by rewrite Hself.
Qed.

Lemma head_heap self n w : heap (DataFrame.head self n w).2 = heap w.
Proof.
  unfold DataFrame.head, bind, self_, ask, lift.
  destruct (heap w !! self) as [obj | ]; [ | done].
  step_ok.
  by destruct (client_search (client obj) (index_pattern obj) n).
Qed.

End ShapeLemmas.

(** C7.  The shape of a frame is the count of documents that the store
    reports for the index pattern and the number of source fields of the
    schema, at the price of one count query; it is the same after [head]
    was asked for any number of rows. *)
Theorem shape_consistency `{Collaborators} (self : nat) (obj : DataFrameObj)
    (w : world) (rows : Z) :
  heap w !! self = Some obj →
  client_count (client obj) (index_pattern obj) = ok rows →
  0 ≤ rows ≤ maxsize →
  DataFrame.shape self w
  = (ok (rows, Z.of_nat (length (source_fields (mappings obj)))),
     asked w (QCount (client obj) (index_pattern obj)))
  ∧ ∀ n, (DataFrame.shape self (DataFrame.head self n w).2).1
         = ok (rows, Z.of_nat (length (source_fields (mappings obj)))).
Proof.
  intros Hself Hcount Hrange. split; [by apply shape_run | ].
  intros n. erewrite shape_run; [done | | done | done].
  by rewrite head_heap.
Qed.

Lemma shape_consistency_witness :
  DataFrame.shape (H := reviews_store) 0 (one_frame reviews_schema)
  = (ok (2, 4), asked (one_frame reviews_schema) (QCount a_client "reviews"))
  ∧ ∀ n, (DataFrame.shape (H := reviews_store) 0
            (DataFrame.head (H := reviews_store) 0 n
               (one_frame reviews_schema)).2).1
         = ok (2, 4).
Proof.
  apply (shape_consistency (H := reviews_store) 0 reviews_frame
           (one_frame reviews_schema) 2).
  - reflexivity.
  - reflexivity.
  - vm_compute. split; discriminate.
Defined.

(** ** Subscripts *)

Section GetitemLemmas.
Context `{Collaborators}.
Implicit Types (self : nat) (obj : DataFrameObj) (w : world).

(** The second half of [__getitem__], for the columns collected *)
Lemma getitem_columns self obj w (item : item) (names : list string) :
  heap w !! self = Some obj →
  names_of item = Some names →
  (∀ name, item = Item (VStr name) →
           is_source_field (mappings obj) name = true) →
  DataFrame.__getitem__ self item w
  = if decide (0 < length names)%nat
    then match Mappings_of_columns (mappings obj) names with
         | inl e => (raise e, w)
         | inr m => (ok (Some (length (heap w))),
                     {| heap := heap w ++ [narrowed obj m];
                        queries := queries w |})
         end
    else (ok None, w).
Proof.
  intros Hself Hnames Hknown.
  unfold DataFrame.__getitem__, bind at 1, self_. rewrite Hself.
  step_ok.
  assert (Hcols :
    (match item with
     | Item (VStr item) =>
         if negb (is_source_field (mappings obj) item)
         then throw (TypeError ("Column does not exist: [" +:+ item +:+ "]"))
         else ret ([] ++ [item])
     | ItemTuple names => ret ([] ++ names)
     | _ => ret []
     end) = ret names).
  { destruct item as [names' | []]; simplify_eq/=; try done.
    by rewrite Hknown. }
  rewrite Hcols. unfold bind at 1, ret at 1, ok at 1. cbv beta iota.
  destruct (decide (0 < length names)%nat); [ | done].
  unfold bind, lift, DataFrame.__init__, ret, new_object.
  by destruct (Mappings_of_columns (mappings obj) names).
Qed.

Lemma getitem_unknown_name self obj w (name : string) :
  heap w !! self = Some obj →
  is_source_field (mappings obj) name = false →
  DataFrame.__getitem__ self (Item (VStr name)) w
  = (raise (TypeError ("Column does not exist: [" +:+ name +:+ "]")), w).
Proof.
  intros Hself Hunknown.
  unfold DataFrame.__getitem__, bind at 1, self_. rewrite Hself.
  step_ok. by rewrite Hunknown.
Qed.

Lemma getitem_other self obj w (item : item) :
  heap w !! self = Some obj →
  names_of item = None →
  DataFrame.__getitem__ self item w = (ok None, w).
Proof.
  intros Hself Hnone.
  unfold DataFrame.__getitem__, bind at 1, self_. rewrite Hself.
  step_ok.
  destruct item as [names | []]; simplify_eq/=; done.
Qed.

(** The two ways [__getitem__] ends: the world as it was, or one more
    frame at the end of the heap. *)
Lemma getitem_cases self obj w (item : item) r w' :
  heap w !! self = Some obj →
  DataFrame.__getitem__ self item w = (r, w') →
  (w' = w ∧ ∀ new, r ≠ ok (Some new))
  ∨ ∃ names m,
      names_of item = Some names
      ∧ Mappings_of_columns (mappings obj) names = ok m
      ∧ r = ok (Some (length (heap w)))
      ∧ w' = {| heap := heap w ++ [narrowed obj m]; queries := queries w |}.
Proof.
  intros Hself Hrun.
  assert (Hcolumns : ∀ names,
    names_of item = Some names →
    (∀ name, item = Item (VStr name) →
             is_source_field (mappings obj) name = true) →
    (w' = w ∧ ∀ new, r ≠ ok (Some new))
    ∨ ∃ names m,
        names_of item = Some names
        ∧ Mappings_of_columns (mappings obj) names = ok m
        ∧ r = ok (Some (length (heap w)))
        ∧ w' = {| heap := heap w ++ [narrowed obj m];
                  queries := queries w |}).
  { intros names Hnames Hknown.
    rewrite (getitem_columns _ _ _ _ names Hself Hnames Hknown) in Hrun.
    destruct (decide (0 < length names)%nat).
    - destruct (Mappings_of_columns (mappings obj) names) as [e | m] eqn:Hm;
        injection Hrun as <- <-; [left; by split | right].
      exists names, m. done.
    - injection Hrun as <- <-. left. by split. }
  destruct item as [names | v].
  - apply (Hcolumns names); [done | discriminate].
  - destruct (names_of (Item v)) as [names | ] eqn:Hnames.
    + destruct v; simplify_eq/=.
      destruct (is_source_field (mappings obj) s) eqn:Hsrc.
      * apply (Hcolumns [s]); [done | by intros ? [= <-]].
      * rewrite (getitem_unknown_name _ _ _ _ Hself Hsrc) in Hrun.
        injection Hrun as <- <-. left. by split.
    + rewrite (getitem_other _ _ _ _ Hself Hnames) in Hrun.
      injection Hrun as <- <-. left. by split.
Qed.

End GetitemLemmas.

(** C10.  A subscript that is neither a string nor a tuple makes
    [__getitem__] return [None]: nothing is raised, and the world is as it
    was, with no query sent and no frame made. *)
Theorem getitem_other_is_None `{Collaborators} (self : nat)
    (obj : DataFrameObj) (w : world) (v : value) :
  heap w !! self = Some obj →
  (∀ name, v ≠ VStr name) →
  DataFrame.__getitem__ self (Item v) w = (ok None, w).
Proof.
  intros Hself Hother. apply (getitem_other _ _ _ _ Hself).
  destruct v; try done. by destruct (Hother s).
Qed.

Lemma getitem_other_is_None_witness :
  DataFrame.__getitem__ (H := reviews_store) 0
    (Item (VList [VStr "nonexistent_field"])) (one_frame reviews_schema)
  = (ok None, one_frame reviews_schema)
  ∧ DataFrame.__getitem__ (H := reviews_store) 0 (Item (VInt 3))
      (one_frame reviews_schema)
    = (ok None, one_frame reviews_schema).
Proof.
  split.
  - apply (getitem_other_is_None (H := reviews_store) 0 reviews_frame);
      [reflexivity | discriminate].
  - apply (getitem_other_is_None (H := reviews_store) 0 reviews_frame);
      [reflexivity | discriminate].
Defined.

(** C2.  A subscript that names columns, one of which is no source field
    of the schema, makes [__getitem__] raise the unknown-column error and
    leaves the world as it was: no query is sent.  For a single name the
    check is the one of [__getitem__]; for a tuple the error is the one of
    the narrowing of the mappings. *)
Theorem getitem_unknown_column `{Collaborators} (self : nat)
    (obj : DataFrameObj) (w : world) (item : item) (names : list string)
    (c : string) :
  heap w !! self = Some obj →
  (∀ columns, Mappings_of_columns (mappings obj) columns
              = Mappings_narrow (mappings obj) columns) →
  names_of item = Some names →
  c ∈ names →
  is_source_field (mappings obj) c = false →
  ∃ e, DataFrame.__getitem__ self item w = (raise e, w) ∧ UnknownColumn e.
Proof.
  intros Hself Hnarrow Hnames Hin Hunknown.
  destruct item as [names' | v].
  2: { destruct v; try discriminate. injection Hnames as <-.
       apply list_elem_of_singleton in Hin as <-.
       eexists. split; [by apply (getitem_unknown_name _ obj) | constructor]. }
  - rewrite (getitem_columns _ _ _ _ names Hself Hnames) by discriminate.
    rewrite decide_True
      by (destruct names; [by apply elem_of_nil in Hin | simpl; lia]).
    rewrite Hnarrow. unfold Mappings_narrow.
    destruct (filter (λ c, is_source_field (mappings obj) c = false) names)
      as [ | c0 rest] eqn:Hfilter.
    + assert (Hc : c ∈ filter (λ c, is_source_field (mappings obj) c = false)
                         names) by (by apply list_elem_of_filter).
      rewrite Hfilter in Hc. by apply elem_of_nil in Hc.
    + eexists. split; [done | constructor].
Qed.

Lemma getitem_unknown_column_witness :
  (∃ e, DataFrame.__getitem__ (H := reviews_store) 0
          (Item (VStr "nonexistent_field")) (one_frame reviews_schema)
        = (raise e, one_frame reviews_schema) ∧ UnknownColumn e)
  ∧ (∃ e, DataFrame.__getitem__ (H := reviews_store) 0
            (ItemTuple ["rating"; "nonexistent_field"])
            (one_frame reviews_schema)
          = (raise e, one_frame reviews_schema) ∧ UnknownColumn e).
Proof.
  split.
  - apply (getitem_unknown_column (H := reviews_store) 0 reviews_frame
             (one_frame reviews_schema) (Item (VStr "nonexistent_field"))
             ["nonexistent_field"] "nonexistent_field").
    + reflexivity.
    + intros columns. reflexivity.
    + reflexivity.
    + apply list_elem_of_singleton. reflexivity.
    + vm_compute; reflexivity.
  - apply (getitem_unknown_column (H := reviews_store) 0 reviews_frame
             (one_frame reviews_schema)
             (ItemTuple ["rating"; "nonexistent_field"])
             ["rating"; "nonexistent_field"] "nonexistent_field").
    + reflexivity.
    + intros columns. reflexivity.
    + reflexivity.
    + right. left.
    + vm_compute; reflexivity.
Defined.

(** ** Describe *)

Section DescribeLemmas.
Context `{Collaborators}.
Implicit Types (self : nat) (obj : DataFrameObj) (w : world).

Lemma describe_run self obj w :
  heap w !! self = Some obj →
  DataFrame.describe self w
  = (rbind (search_execute (client obj) (index_pattern obj)
              (DataFrame.search_aggs (numeric_source_fields (mappings obj))))
       (λ aggregations,
          rbind (for_each (numeric_source_fields (mappings obj))
                   (DataFrame.collect aggregations) [])
            (λ results, ok (pd_DataFrame_of_dict results stats_labels))),
     asked w (stats_request obj)).
Proof.
  intros Hself. unfold DataFrame.describe, bind, self_, ask, lift, ret.
  rewrite Hself. step_ok.
  destruct (search_execute _ _ _) as [e | aggregations]; [done | ].
  step_ok. simpl.
  by destruct (for_each _ (DataFrame.collect aggregations) []).
Qed.

Lemma describe_heap self w : heap (DataFrame.describe self w).2 = heap w.
Proof.
  destruct (heap w !! self) as [obj | ] eqn:Hself.
  - by rewrite (describe_run _ _ _ Hself).
  - unfold DataFrame.describe, bind, self_. by rewrite Hself.
Qed.

(** The second loop of [describe]: a field gets its values when they are
    not all [None], and is left alone otherwise. *)
Lemma for_each_collect_ok aggregations fields : ∀ acc results,
  for_each fields (DataFrame.collect aggregations) acc = ok results →
  Forall (λ field, ∃ values,
            DataFrame.field_values aggregations field = ok values) fields
  ∧ ∀ f values,
      DataFrame.field_values aggregations f = ok values →
      dict_get results f
      = if decide (f ∈ fields
                   ∧ (DataFrame.count_None values < length values)%nat)
        then Some values else dict_get acc f.
Proof.
  induction fields as [ | field fields IH]; intros acc results;
    cbn [for_each].
  - intros [= <-]. split; [constructor | ]. intros f values _.
    rewrite decide_False; [done | ]. intros [Hin _].
    by apply elem_of_nil in Hin.
  - intros Hloop. apply rbind_ok in Hloop as (acc1 & Hcollect & Hloop).
    unfold DataFrame.collect in Hcollect.
    apply rbind_ok in Hcollect as (values0 & Hvalues0 & Hcollect).
    destruct (IH _ _ Hloop) as [Hall Hget]. split; [constructor; eauto | ].
    intros f values Hvalues. rewrite (Hget _ _ Hvalues).
    destruct (decide (f ∈ fields ∧ _)) as [[Hin Hsome] | Hnot].
    + rewrite decide_True; [done | ]. split; [by right | done].
    + destruct (decide (field = f)) as [-> | Hne].
      * assert (values0 = values) as -> by (unfold ok in *; congruence).
        destruct (decide (DataFrame.count_None values < length values)%nat)
          as [Hsome | Hnone]; injection Hcollect as <-.
        -- rewrite decide_True by (split; [left | done]).
           apply dict_get_set_eq.
        -- rewrite decide_False; [done | ]. intros [_ ?]. done.
      * rewrite decide_False.
        -- destruct (decide (DataFrame.count_None values0
                             < length values0)%nat);
             injection Hcollect as <-; [by apply dict_get_set_ne | done].
        -- intros [Hin Hsome].
           apply elem_of_cons in Hin as [-> | Hin]; [done | ].
           apply Hnot. by split.
Qed.

Lemma for_each_collect_returns aggregations fields : ∀ acc,
  Forall (λ field, ∃ values,
            DataFrame.field_values aggregations field = ok values) fields →
  ∃ results, for_each fields (DataFrame.collect aggregations) acc = ok results.
Proof.
  intros acc Hall. revert acc.
  induction Hall as [ | field fields [values Hvalues] _ IH]; intros acc;
    cbn [for_each]; [by eexists | ].
  unfold DataFrame.collect at 1. rewrite Hvalues. simpl.
  destruct (decide (DataFrame.count_None values < length values)%nat);
    simpl; apply IH.
Qed.

Lemma df_columns_of_dict results labels :
  df_columns (pd_DataFrame_of_dict results labels) = dict_keys results.
Proof.
  unfold df_columns, pd_DataFrame_of_dict, dict_keys. simpl.
  by rewrite <- list_fmap_compose.
Qed.

Lemma data_of_dict_get results labels f :
  dict_get (data (pd_DataFrame_of_dict results labels)) f
  = (λ values : list value, pd_column (Cell <$> values))
    <$> dict_get results f.
Proof.
  unfold pd_DataFrame_of_dict. simpl.
  induction results as [ | [k vs] results IH]; simpl; [done | ].
  by destruct (decide (k = f)).
Qed.

End DescribeLemmas.

(** C1, as the code has it.  [describe] returns a table when the store
    answers with the statistics of every numeric field.  A field whose
    eight statistics are all null, the count too, is no column of the
    table.  A numeric field whose count is not null and whose other seven
    statistics are null is a column of the table. *)
Theorem describe_drops_all_null `{Collaborators} (self : nat)
    (obj : DataFrameObj) (w : world) (aggregations : value) (f : string) :
  heap w !! self = Some obj →
  search_execute (client obj) (index_pattern obj)
    (DataFrame.search_aggs (numeric_source_fields (mappings obj)))
  = ok aggregations →
  Forall (λ field, ∃ values,
            DataFrame.field_values aggregations field = ok values)
         (numeric_source_fields (mappings obj)) →
  ∃ df, DataFrame.describe self w = (ok df, asked w (stats_request obj))
        ∧ (DataFrame.field_values aggregations f = ok (replicate 8 VNone) →
           f ∉ df_columns df)
        ∧ (∀ count,
             f ∈ numeric_source_fields (mappings obj) →
             is_None count = false →
             DataFrame.field_values aggregations f
             = ok (count :: replicate 7 VNone) →
             f ∈ df_columns df).
Proof.
  intros Hself Hexecute Hstats.
  destruct (for_each_collect_returns aggregations _ [] Hstats)
    as [results Hresults].
  exists (pd_DataFrame_of_dict results stats_labels).
  rewrite (describe_run _ _ _ Hself), Hexecute. step_ok.
  rewrite Hresults. step_ok.
  split; [done | ].
  apply for_each_collect_ok in Hresults as [_ Hget]. split.
  - intros Hnull. rewrite df_columns_of_dict. apply dict_get_None.
    rewrite (Hget _ _ Hnull). rewrite decide_False; [done | ].
    intros [_ Hsome]. vm_compute in Hsome. lia.
  - intros count Hin Hcount Hvalues. rewrite df_columns_of_dict.
    apply (dict_get_Some_key _ _ (count :: replicate 7 VNone)).
    rewrite (Hget _ _ Hvalues). rewrite decide_True; [done | ].
    split; [done | ]. unfold DataFrame.count_None. simpl.
    rewrite filter_cons, decide_False by (by rewrite Hcount). simpl. lia.
Qed.

Lemma describe_drops_all_null_witness :
  ∃ df, DataFrame.describe
          (H := fixed_store rating_schema [] (VDict (null_stats "rating")))
          0 (one_frame rating_schema)
        = (ok df, asked (one_frame rating_schema) (stats_request rating_frame))
        ∧ "rating" ∉ df_columns df.
Proof.
  destruct (describe_drops_all_null
              (H := fixed_store rating_schema [] (VDict (null_stats "rating")))
              0 rating_frame (one_frame rating_schema)
              (VDict (null_stats "rating")) "rating")
    as (df & Hrun & Hdrop & _).
  - reflexivity.
  - reflexivity.
  - repeat constructor. eexists. vm_compute. reflexivity.
  - exists df. split; [exact Hrun | ]. apply Hdrop. vm_compute. reflexivity.
Defined.

(** C1, as it is stated, fails: the store reports a count of zero and
    seven nulls for [rating], and [rating] is a column of the table. *)
Lemma describe_keeps_zero_count :
  DataFrame.field_values (VDict (empty_stats "rating")) "rating"
  = ok [VInt 0; VNone; VNone; VNone; VNone; VNone; VNone; VNone]
  ∧ ∃ df, (DataFrame.describe (H := rating_store) 0
             (one_frame rating_schema)).1 = ok df
          ∧ "rating" ∈ df_columns df.
Proof.
  split; [vm_compute; reflexivity | ].
  eexists. split; [vm_compute; reflexivity | ]. left.
Qed.

(** ** Accessors leave the frame alone *)

Lemma shape_heap `{Collaborators} (self : nat) (w : world) :
  heap (DataFrame.shape self w).2 = heap w.
Proof.
  unfold DataFrame.shape, DataFrame.len, DataFrame.__len__, DataFrame.columns,
    bind, self_, ask, ret, throw.
  destruct (heap w !! self) as [obj | ] eqn:Hself; [ | done].
  step_ok.
  destruct (client_count (client obj) (index_pattern obj)) as [e | rows];
    [done | ].
  destruct (decide (rows < 0)); [done | ].
  destruct (decide (maxsize < rows)); [done | ].
  unfold asked at 1. simpl. by rewrite Hself.
Qed.

(** C8.  [head], [describe] and [shape] leave every object of the heap as
    it is.  [__getitem__] leaves the frame it is called on as it is, with
    its client, index pattern, mappings and operations; the frame it
    returns is another object, which holds the mappings made for the names
    asked for, the same index pattern and no operations. *)
Theorem accessors_keep_proxy `{Collaborators} (self : nat)
    (obj : DataFrameObj) (w : world) :
  heap w !! self = Some obj →
  (∀ n, heap (DataFrame.head self n w).2 = heap w)
  ∧ heap (DataFrame.describe self w).2 = heap w
  ∧ heap (DataFrame.shape self w).2 = heap w
  ∧ ∀ item r w',
      DataFrame.__getitem__ self item w = (r, w') →
      heap w' !! self = Some obj
      ∧ ∀ new, r = ok (Some new) →
          new ≠ self
          ∧ ∃ names m,
              names_of item = Some names
              ∧ Mappings_of_columns (mappings obj) names = ok m
              ∧ heap w' = heap w ++ [narrowed obj m]
              ∧ heap w' !! new = Some (narrowed obj m).
Proof.
  intros Hself. split; [intros n; apply head_heap | ].
  split; [apply describe_heap | ]. split; [apply shape_heap | ].
  intros item r w' Hrun.
  destruct (getitem_cases _ _ _ _ _ _ Hself Hrun)
    as [[-> Hnone] | (names & m & Hnames & Hm & -> & ->)].
  - split; [done | ]. intros new ->. by destruct (Hnone new).
  - simpl. split; [by apply lookup_app_l_Some | ].
    intros new [= <-]. apply lookup_lt_Some in Hself as Hlt.
    split; [lia | ]. exists names, m. repeat split; try done.
    by rewrite lookup_app_r, Nat.sub_diag.
Qed.

Lemma accessors_keep_proxy_witness :
  heap (DataFrame.head (H := reviews_store) 0 5 (one_frame reviews_schema)).2
  = [reviews_frame]
  ∧ (DataFrame.__getitem__ (H := reviews_store) 0
       (ItemTuple ["date"; "rating"]) (one_frame reviews_schema)).1
    = ok (Some 1%nat)
  ∧ heap (DataFrame.__getitem__ (H := reviews_store) 0
            (ItemTuple ["date"; "rating"]) (one_frame reviews_schema)).2
    !! 0%nat = Some reviews_frame.
Proof.
  destruct (accessors_keep_proxy (H := reviews_store) 0 reviews_frame
              (one_frame reviews_schema) eq_refl)
    as (Hhead & _ & _ & Hgetitem).
  split; [apply Hhead | ]. split; [vm_compute; reflexivity | ].
  eapply Hgetitem. apply surjective_pairing.
Defined.

(** ** Deleting a model *)

(** C9.  When the client reports a model that is not there, be it with
    the body of the ignored 404 or with [NotFoundError], [delete_model]
    returns [None] and raises nothing; it does nothing to the store beyond
    the one call. *)
Theorem delete_model_not_found `{MLModel.MLClient} (self : MLModel.MLModelObj)
    (s : MLModel.store) :
  MLModel.not_found
    (MLModel.delete_trained_model (MLModel._client self)
       (MLModel._model_id self) [404] s).1 →
  MLModel.delete_model self s
  = (ok VNone,
     (MLModel.delete_trained_model (MLModel._client self)
        (MLModel._model_id self) [404] s).2).
Proof.
  unfold MLModel.delete_model.
  destruct (MLModel.delete_trained_model _ _ _ s) as [r s']. simpl.
  by intros [body | ].
Qed.

Lemma delete_model_not_found_witness :
  MLModel.delete_model (H := MLModel.set_client false)
    (MLModel.__init__ (H := MLModel.set_client false) a_client "absent")
    ({["other"]} : gset string)
  = (ok VNone, {["other"]})
  ∧ MLModel.delete_model (H := MLModel.set_client true)
      (MLModel.__init__ (H := MLModel.set_client true) a_client "absent")
      ({["other"]} : gset string)
    = (ok VNone, {["other"]}).
Proof.
  split.
  - etransitivity.
    + apply (delete_model_not_found (H := MLModel.set_client false)
               (MLModel.__init__ (H := MLModel.set_client false) a_client
                  "absent")
               ({["other"]} : gset string)).
      vm_compute. constructor.
    + vm_compute. reflexivity.
  - etransitivity.
    + apply (delete_model_not_found (H := MLModel.set_client true)
               (MLModel.__init__ (H := MLModel.set_client true) a_client
                  "absent")
               ({["other"]} : gset string)).
      vm_compute. constructor.
    + vm_compute. reflexivity.
Defined.

(** On the store of ids, deleting a model that is not there returns and
    leaves the store as it is, whether 404 is ignored or raised; so doing
    it again does the same. *)
Lemma delete_model_absent (honour_ignore : bool) (self : MLModel.MLModelObj)
    (models : gset string) :
  MLModel._model_id self ∉ models →
  MLModel.delete_model (H := MLModel.set_client honour_ignore) self models
  = (ok VNone, models).
Proof.
  intros Habsent. unfold MLModel.delete_model. simpl.
  rewrite decide_False by done.
  unfold MLModel.perform_request. rewrite decide_False by lia.
  destruct honour_ignore; [ | done].
  rewrite bool_decide_eq_true_2; [done | left].
Qed.

(** Any other failure of the call is passed on. *)
Lemma delete_model_raises `{MLModel.MLClient} (self : MLModel.MLModelObj)
    (s s' : MLModel.store) (e : exn) :
  MLModel.delete_trained_model (MLModel._client self)
    (MLModel._model_id self) [404] s = (raise e, s') →
  e ≠ NotFoundError →
  MLModel.delete_model self s = (raise e, s').
Proof.
  intros Hcall Hother. unfold MLModel.delete_model. rewrite Hcall.
  unfold raise. by destruct e.
Qed.

(** * Further properties *)

(** ** The rows that flattening makes *)

Section FlattenKeys.
Context `{Collaborators}.
Variable mappings : Mappings.

(** Every leaf of a traversal sits at a source field. *)
Lemma occurrences_source_fields x : ∀ name,
  Forall (λ kv, (source_field_pd_dtype mappings kv.1).1 = true)
         (occurrences mappings x name).
Proof.
  assert (Hleaf : ∀ (y : value) name,
    (path_dtype mappings name).1 = true →
    Forall (λ kv, (source_field_pd_dtype mappings kv.1).1 = true)
           [(drop_last name, y)]).
  { intros y name Hpath. constructor; [ | constructor]. simpl.
    unfold path_dtype in Hpath. by destruct (decide (name = "")). }
  induction x as [ | b | n | q | s | xs IH | items IH | ns]
    using value_nested_ind; intros name;
    destruct (path_dtype mappings name).1 eqn:Hpath.
  all: try (rewrite occurrences_leaf by done; by apply Hleaf).
  all: try (rewrite occurrences_scalar by done; constructor).
  - rewrite occurrences_list_node by done.
    apply Forall_concat, Forall_fmap.
    eapply Forall_impl; [exact IH | ]. intros a Ha. apply Ha.
  - rewrite occurrences_dict_node by done.
    apply Forall_concat, Forall_fmap.
    eapply Forall_impl; [exact IH | ]. intros kv Hkv. apply Hkv.
Qed.

Lemma coerce_all_keys kvs : ∀ leaves,
  coerce_all mappings kvs = ok leaves → leaves.*1 = kvs.*1.
Proof.
  induction kvs as [ | [f x] kvs IH]; intros leaves; simpl.
  - by intros [= <-].
  - intros Hall. apply rbind_ok in Hall as (x' & _ & Hall).
    apply rbind_ok in Hall as (rest & Hrest & [= <-]).
    simpl. f_equal. by apply IH.
Qed.

Lemma merge_keys (out : dict) (kv : string * value) k :
  k ∈ dict_keys (merge out kv) → k ∈ dict_keys out ∨ k = kv.1.
Proof.
  unfold merge.
  destruct (dict_get out kv.1) as [cur | ] eqn:Hget.
  - apply dict_get_Some_key in Hget as Hin.
    destruct cur; rewrite dict_keys_set_old by done; by left.
  - apply dict_get_None in Hget.
    rewrite dict_keys_set_new, elem_of_app, list_elem_of_singleton by done.
    done.
Qed.

Lemma foldl_merge_keys leaves : ∀ (out : dict) k,
  k ∈ dict_keys (foldl merge out leaves) → k ∈ dict_keys out ∨ k ∈ leaves.*1.
Proof.
  induction leaves as [ | kv leaves IH]; intros out k; simpl; [by left | ].
  intros Hin. apply IH in Hin as [Hin | Hin]; [ | right; by right].
  apply merge_keys in Hin as [Hin | ->]; [by left | right; left].
Qed.

End FlattenKeys.

(** X1.  The keys of a flattened row are source fields of the mappings:
    what sits in a document under any other path is not in the row. *)
Theorem flatten_dict_keys_source_fields `{Collaborators} (mappings : Mappings)
    (y : value) (out : dict) (k : string) :
  flatten_dict mappings y = ok out →
  k ∈ dict_keys out →
  (source_field_pd_dtype mappings k).1 = true.
Proof.
  intros Hflat Hkey. apply flatten_dict_ok in Hflat as (leaves & Hall & ->).
  apply foldl_merge_keys in Hkey as [Hkey | Hkey].
  - by apply elem_of_nil in Hkey.
  - rewrite (coerce_all_keys _ _ _ Hall) in Hkey.
    apply list_elem_of_fmap in Hkey as (kv & -> & Hkv).
    pose proof (occurrences_source_fields mappings y "") as Hsrc.
    rewrite Forall_forall in Hsrc. by apply Hsrc.
Qed.

Lemma flatten_dict_keys_source_fields_witness :
  (source_field_pd_dtype nested_schema "user.first").1 = true.
Proof.
  apply (flatten_dict_keys_source_fields (H := reviews_store) nested_schema
           nested_doc
           [("group", VStr "amsterdam");
            ("user.first", VList [VStr "John"; VStr "Alice"]);
            ("user.last", VList [VStr "Smith"; VStr "White"])]
           "user.first").
  - reflexivity.
  - right. left.
Defined.

(** X2.  With mappings that have no datetime field, flattening calls no
    coercion: it returns for every document, and the row is the leaves of
    the traversal merged in order. *)
Theorem flatten_dict_without_dates `{Collaborators} (mappings : Mappings)
    (y : value) :
  (∀ f, (source_field_pd_dtype mappings f).2 ≠ "datetime64[ns]") →
  flatten_dict mappings y = ok (foldl merge [] (occurrences mappings y "")).
Proof.
  intros Hnodate. rewrite flatten_dict_pass. unfold pass.
  assert (Hid : ∀ kvs, coerce_all mappings kvs = ok kvs).
  { induction kvs as [ | [f x] kvs IH]; simpl; [done | ].
    unfold coerce. rewrite decide_False by apply Hnodate. simpl.
    by rewrite IH. }
  by rewrite Hid.
Qed.

Lemma flatten_dict_without_dates_witness :
  flatten_dict (H := reviews_store) nested_schema nested_doc
  = ok (foldl merge [] (occurrences nested_schema nested_doc "")).
Proof.
  apply (flatten_dict_without_dates (H := reviews_store) nested_schema).
  intros f. unfold nested_schema, table_mappings. simpl.
  repeat (destruct (decide (_ = f)) as [ | _]; [discriminate | ]).
  discriminate.
Defined.

(** X3.  When flattening raises, the exception is the one that
    [pd.to_datetime] raised on a leaf of a datetime field of the
    document. *)
Theorem flatten_dict_raises `{Collaborators} (mappings : Mappings)
    (y : value) (e : exn) :
  flatten_dict mappings y = raise e →
  ∃ f x, (f, x) ∈ occurrences mappings y ""
         ∧ (source_field_pd_dtype mappings f).2 = "datetime64[ns]"
         ∧ to_datetime x = raise e.
Proof.
  rewrite flatten_dict_pass. unfold pass.
  generalize (occurrences mappings y ""). intros kvs.
  destruct (coerce_all mappings kvs) as [e' | leaves] eqn:Hall;
    [ | discriminate].
  simpl. intros [= ->]. revert Hall.
  induction kvs as [ | [f x] kvs IH]; simpl; [discriminate | ].
  destruct (coerce mappings f x) as [e1 | x'] eqn:Hx; simpl.
  - intros [= ->]. exists f, x. split; [left | ].
    unfold coerce in Hx.
    destruct (decide (_ = "datetime64[ns]")); [done | discriminate].
  - destruct (coerce_all mappings kvs) as [e2 | rest]; simpl;
      [ | discriminate].
    intros [= ->]. destruct (IH eq_refl) as (f' & x0 & Hin & ?).
    exists f', x0. split; [by right | done].
Qed.

Lemma flatten_dict_raises_witness :
  ∃ f x, (f, x) ∈ occurrences reviews_schema
                    (VDict [("date", VStr "yesterday")]) ""
         ∧ (source_field_pd_dtype reviews_schema f).2 = "datetime64[ns]"
         ∧ to_datetime (Collaborators := reviews_store) x
           = raise (PandasError "cannot parse").
Proof.
  apply (flatten_dict_raises (H := reviews_store) reviews_schema
           (VDict [("date", VStr "yesterday")]) (PandasError "cannot parse")).
  vm_compute. reflexivity.
Defined.

(** ** Paths *)

Lemma append_assoc (s1 s2 s3 : string) :
  (s1 +:+ s2) +:+ s3 = s1 +:+ s2 +:+ s3.
Proof.
  induction s1 as [ | c s1 IH]; [done | ].
  change (String c ((s1 +:+ s2) +:+ s3) = String c (s1 +:+ s2 +:+ s3)).
  by rewrite IH.
Qed.

(** [(s + c)[:-1]] is [s]. *)
Lemma drop_last_snoc (s : string) (c : Ascii.ascii) :
  drop_last (s +:+ String c "") = s.
Proof.
  induction s as [ | c0 s IH]; [done | ].
  change (String c0 s +:+ String c "") with (String c0 (s +:+ String c "")).
  cbn [drop_last]. rewrite IH. by destruct s.
Qed.

Lemma append_dot_not_empty (s : string) : s +:+ "." ≠ "".
Proof. by destruct s. Qed.

(** The path of a key under a path is never the root. *)
Lemma path_dtype_key `{Collaborators} (mappings : Mappings) (name a : string) :
  path_dtype mappings (name +:+ a +:+ ".")
  = source_field_pd_dtype mappings (name +:+ a).
Proof.
  unfold path_dtype. rewrite <- append_assoc.
  rewrite decide_False by apply append_dot_not_empty.
  by rewrite drop_last_snoc.
Qed.

(** X4.  A value under key [b] of a sub-document under key [a] goes to the
    column [a.b] when [a.b] is a source field and [a] is not.  The value is
    taken whole, be it a scalar, a list or a dict, and is not descended
    into: it is stored as it is when the dtype of [a.b] is not
    [datetime64[ns]], and as [pd.to_datetime] makes it when it is, an
    exception of [pd.to_datetime] being raised. *)
Theorem flatten_dict_dotted_name `{Collaborators} (mappings : Mappings)
    (a b dtype : string) (v : value) :
  (source_field_pd_dtype mappings a).1 = false →
  source_field_pd_dtype mappings (a +:+ "." +:+ b) = (true, dtype) →
  flatten_dict mappings (VDict [(a, VDict [(b, v)])])
  = rbind (if decide (dtype = "datetime64[ns]") then to_datetime v else ok v)
          (λ v', ok [(a +:+ "." +:+ b, v')]).
Proof.
  intros Ha Hab. unfold flatten_dict.
  assert (Hroot : path_dtype mappings "" = (false, "object")) by done.
  rewrite (flatten_dict_node _ _ _ _ _ Hroot). cbn [for_each fst snd].
  change ("" +:+ a +:+ ".") with (a +:+ ".").
  assert (Hpa : path_dtype mappings (a +:+ ".")
                = (false, (source_field_pd_dtype mappings a).2)).
  { pose proof (path_dtype_key mappings "" a) as Hkey.
    change ("" +:+ a +:+ ".") with (a +:+ ".") in Hkey.
    change ("" +:+ a) with a in Hkey. rewrite Hkey.
    destruct (source_field_pd_dtype mappings a) as [isf d]. simpl in *.
    by subst. }
  rewrite (flatten_dict_node _ _ _ _ _ Hpa). cbn [for_each fst snd].
  assert (Hpab : path_dtype mappings ((a +:+ ".") +:+ b +:+ ".")
                 = (true, dtype)).
  { rewrite path_dtype_key. by rewrite append_assoc. }
  rewrite (flatten_leaf _ _ _ _ _ Hpab). unfold emit.
  rewrite <- (append_assoc (a +:+ ".") b "."), drop_last_snoc, append_assoc.
  destruct (decide (dtype = "datetime64[ns]")); [ | reflexivity].
  by destruct (to_datetime v).
Qed.

Lemma flatten_dict_dotted_name_witness :
  flatten_dict (H := reviews_store) nested_schema
    (VDict [("user", VDict [("first", VDict [("nick", VStr "Jo")])])])
  = ok [("user.first", VDict [("nick", VStr "Jo")])].
Proof.
  etransitivity;
    [apply (flatten_dict_dotted_name (H := reviews_store) nested_schema
              "user" "first" "object") | ].
  - reflexivity.
  - reflexivity.
  - reflexivity.
Defined.

(** ** The frame that [head] makes *)

Lemma dict_get_fmap_keys {V} (g : string → V) (ks : list string) (c : string) :
  dict_get ((λ k, (k, g k)) <$> ks) c
  = if decide (c ∈ ks) then Some (g c) else None.
Proof.
  induction ks as [ | k ks IH]; cbn [fmap list_fmap dict_get].
  - rewrite decide_False; [done | apply not_elem_of_nil].
  - destruct (decide (k = c)) as [-> | Hne].
    + rewrite decide_True; [done | left].
    + rewrite IH. destruct (decide (c ∈ ks)) as [Hin | Hnot].
      * rewrite decide_True; [done | by right].
      * rewrite decide_False; [done | ].
        rewrite elem_of_cons. intros [? | ?]; [congruence | done].
Qed.

(** A selection is determined by its names and the columns they name. *)
Lemma selected_columns {V} (F : string → option V) (g : string → V)
    (names : list string) : ∀ sel : list (string * V),
  sel.*1 = names →
  Forall (λ col, F col.1 = Some col.2) sel →
  (∀ c, c ∈ names → F c = Some (g c)) →
  sel = (λ c, (c, g c)) <$> names.
Proof.
  induction names as [ | c names IH]; intros sel Hnames Hsel Hg.
  - by destruct sel.
  - destruct sel as [ | [c' xs] sel]; [discriminate | ].
    injection Hnames as -> Hnames.
    apply Forall_cons in Hsel as [Hc Hsel]. simpl in Hc.
    rewrite Hg in Hc by left. injection Hc as <-.
    cbn [fmap list_fmap]. f_equal. apply IH; [done | done | ].
    intros c0 Hc0. apply Hg. by right.
Qed.

Section FrameOfResults.
Context `{Collaborators}.
Variable mappings : Mappings.

Lemma _es_results_to_pandas_frame results df :
  _es_results_to_pandas mappings results = ok df →
  ∃ hits rows,
    hits_of results = ok hits
    ∧ Forall2 (λ hit row, ∃ doc, py_getitem hit "_source" = ok doc
                                 ∧ flatten_dict mappings doc = ok row)
              hits rows
    ∧ index df = LInt <$> seq 0 (length hits)
    ∧ data df = (λ c, (c, reconciled_column rows c)) <$> source_fields mappings.
Proof.
  intros Hres.
  apply _es_results_to_pandas_ok
    in Hres as (hits & rows & filled & Hhits & Hrows & Hfill & Hsel).
  apply for_each_append_row_ok in Hrows as (rows' & -> & Hrows).
  simpl in *. exists hits, rows'. split; [done | ]. split; [done | ].
  apply for_each_fill_missing_ok in Hfill as [Hindex Hdata].
  apply df_getitem_list_ok in Hsel as (Hindex' & Hcols & Hsel).
  split.
  { rewrite Hindex', Hindex. unfold pd_DataFrame. simpl.
    by rewrite (Forall2_length _ _ _ Hrows). }
  apply (selected_columns (dict_get (data filled))); [done | done | ].
  intros c Hc. rewrite Hdata, index_pd_DataFrame. unfold reconciled_column.
  destruct (decide (c ∈ union_keys rows')) as [Hin | Hnot].
  - rewrite decide_False
      by (rewrite elem_of_missing_columns, df_columns_pd_DataFrame; tauto).
    unfold pd_DataFrame. cbn [data].
    rewrite (dict_get_fmap_keys
               (λ c, pd_column ((λ row, cell_of row c) <$> rows'))).
    by rewrite decide_True.
  - rewrite decide_True; [done | ].
    by rewrite elem_of_missing_columns, df_columns_pd_DataFrame.
Qed.

End FrameOfResults.

Section HeadLemmas.
Context `{Collaborators}.
Variable mappings : Mappings.

(** [_es_results_to_pandas], its three stages apart *)
Lemma _es_results_to_pandas_stages results :
  _es_results_to_pandas mappings results
  = rbind (hits_of results) (λ hits,
      rbind (for_each hits (append_row mappings) []) (λ rows,
        rbind (for_each (missing_columns (source_fields mappings)
                           (pd_DataFrame rows))
                 (fill_missing mappings) (pd_DataFrame rows))
              (λ df, df_getitem_list df (source_fields mappings)))).
Proof.
  unfold _es_results_to_pandas, hits_of.
  destruct (py_getitem results "hits") as [e | h1]; [done | ]. simpl.
  by destruct (py_getitem h1 "hits") as [e | h2].
Qed.

Lemma for_each_append_row_good hits : ∀ acc,
  Forall (λ hit, ∃ doc row, py_getitem hit "_source" = ok doc
                            ∧ flatten_dict mappings doc = ok row) hits →
  ∃ rows, for_each hits (append_row mappings) acc = ok (acc ++ rows).
Proof.
  induction hits as [ | hit hits IH]; intros acc Hgood; cbn [for_each].
  - exists []. by rewrite app_nil_r.
  - apply Forall_cons in Hgood as [(doc & row & Hdoc & Hrow) Hgood].
    unfold append_row at 1. rewrite Hdoc. step_ok. rewrite Hrow.
    do 2 step_ok.
    destruct (IH (acc ++ [row]) Hgood) as [rows Hrows].
    exists (row :: rows). rewrite Hrows. by rewrite <- app_assoc.
Qed.

(** The rows of documents without a field are without the field. *)
Lemma rows_without_field hits : ∀ rows docs f,
  Forall2 (λ hit row, ∃ doc, py_getitem hit "_source" = ok doc
                             ∧ flatten_dict mappings doc = ok row)
          hits rows →
  Forall2 (λ hit doc, py_getitem hit "_source" = ok doc) hits docs →
  Forall (λ doc, occurrences_of mappings doc f = []) docs →
  Forall (λ row : dict, dict_get row f = None) rows.
Proof.
  induction hits as [ | hit hits IH]; intros rows docs f Hrows Hdocs Habsent.
  - apply Forall2_nil_inv_l in Hrows as ->. constructor.
  - apply Forall2_cons_inv_l
      in Hrows as (row & rows' & (doc & Hdoc & Hflat) & Hrows & ->).
    apply Forall2_cons_inv_l in Hdocs as (doc' & docs' & Hdoc' & Hdocs & ->).
    apply Forall_cons in Habsent as [Hnone Habsent].
    assert (doc' = doc) as -> by (unfold ok in *; congruence).
    constructor; [by eapply flatten_dict_absent | by eapply IH].
Qed.


(** The second stage raises when [astype] refuses the column of [None] of
    one of the missing fields. *)
Lemma for_each_fill_missing_raises cs : ∀ df c e,
  c ∈ cs →
  astype (replicate (length (index df)) (Cell VNone))
    (source_field_pd_dtype mappings c).2 = raise e →
  ∃ e', for_each cs (fill_missing mappings) df = raise e'.
Proof.
  induction cs as [ | c0 cs IH]; intros df c e Hin Hraises.
  - by apply elem_of_nil in Hin.
  - cbn [for_each].
    destruct (fill_missing mappings c0 df) as [e1 | df1] eqn:Hfill;
      [by exists e1 | ].
    cbn [rbind]. apply elem_of_cons in Hin as [-> | Hin].
    + exfalso. unfold fill_missing in Hfill.
      destruct (source_field_pd_dtype mappings c0) as [isf dtype].
      rewrite df_getitem_setitem in Hfill. simpl in *.
      by rewrite Hraises in Hfill.
    + apply fill_missing_ok in Hfill as ->. by eapply IH.
Qed.

End HeadLemmas.

(** X5.  The frame that [head] returns has one row for each hit of the
    search, labelled from 0, and one column for each source field, in the
    order of the mappings.  The column of a field that some flattened
    document has is what pandas makes, with the dtype it infers, of the
    values of the field in the flattened documents, NaN standing for a
    document without the field; the column of a field that no document has
    is [None] in every row. *)
Theorem head_frame `{Collaborators} (self : nat) (obj : DataFrameObj) (n : Z)
    (w w' : world) (results : value) (df : Frame) :
  heap w !! self = Some obj →
  client_search (client obj) (index_pattern obj) n = ok results →
  DataFrame.head self n w = (ok df, w') →
  ∃ hits rows,
    hits_of results = ok hits
    ∧ Forall2 (λ hit row, ∃ doc, py_getitem hit "_source" = ok doc
                                 ∧ flatten_dict (mappings obj) doc = ok row)
              hits rows
    ∧ index df = LInt <$> seq 0 (length hits)
    ∧ data df = (λ c, (c, reconciled_column rows c))
                <$> source_fields (mappings obj).
Proof.
  intros Hself Hsearch Hhead.
  rewrite (head_run _ _ _ _ Hself), Hsearch in Hhead.
  injection Hhead as Hres _. step_ok.
  by apply _es_results_to_pandas_frame.
Qed.

Lemma head_frame_witness :
  ∃ hits rows,
    hits_of (VDict [("hits", VDict [("hits",
               VList ((λ d, VDict [("_source", d)]) <$> reviews_docs))])])
    = ok hits
    ∧ Forall2 (λ hit row, ∃ doc, py_getitem hit "_source" = ok doc
                 ∧ flatten_dict (H := reviews_store) reviews_schema doc
                   = ok row)
              hits rows
    ∧ index reviews_head = LInt <$> seq 0 (length hits)
    ∧ data reviews_head
      = (λ c, (c, reconciled_column (H := reviews_store) rows c))
        <$> source_fields reviews_schema.
Proof.
  apply (head_frame (H := reviews_store) 0 reviews_frame 5
           (one_frame reviews_schema)
           (asked (one_frame reviews_schema) (QSearch a_client "reviews" 5))).
  - reflexivity.
  - vm_compute; reflexivity.
  - vm_compute; reflexivity.
Defined.

(** X6.  [head] sends one search to the store, for its index pattern and
    the number of rows asked, whether it returns or raises; an exception of
    the search is raised as it is. *)
Theorem head_one_query `{Collaborators} (self : nat) (obj : DataFrameObj)
    (n : Z) (w : world) :
  heap w !! self = Some obj →
  (DataFrame.head self n w).2
  = asked w (QSearch (client obj) (index_pattern obj) n)
  ∧ ∀ e, client_search (client obj) (index_pattern obj) n = raise e →
         (DataFrame.head self n w).1 = raise e.
Proof.
  intros Hself. rewrite (head_run _ _ _ _ Hself). split; [done | ].
  by intros e ->.
Qed.

Lemma head_one_query_witness :
  (DataFrame.head
     (H := with_search reviews_store (raise (TransportError 503)))
     0 7 (one_frame reviews_schema)).2
  = asked (one_frame reviews_schema) (QSearch a_client "reviews" 7)
  ∧ ∀ e, (raise (TransportError 503) : result value) = raise e →
         (DataFrame.head
            (H := with_search reviews_store (raise (TransportError 503)))
            0 7 (one_frame reviews_schema)).1 = raise e.
Proof.
  apply (head_one_query
           (H := with_search reviews_store (raise (TransportError 503)))
           0 reviews_frame 7 (one_frame reviews_schema)).
  reflexivity.
Defined.

(** X7.  A search result that is a dict without the key [hits] makes
    [head] raise [KeyError('hits')]. *)
Theorem head_without_hits `{Collaborators} (self : nat) (obj : DataFrameObj)
    (n : Z) (w : world) (items : list (string * value)) :
  heap w !! self = Some obj →
  client_search (client obj) (index_pattern obj) n = ok (VDict items) →
  dict_get items "hits" = None →
  DataFrame.head self n w
  = (raise (KeyError "hits"),
     asked w (QSearch (client obj) (index_pattern obj) n)).
Proof.
  intros Hself Hsearch Hnone.
  rewrite (head_run _ _ _ _ Hself), Hsearch. step_ok.
  unfold _es_results_to_pandas, py_getitem at 1. by rewrite Hnone.
Qed.

Lemma head_without_hits_witness :
  DataFrame.head
    (H := with_search reviews_store (ok (VDict [("timed_out", VBool true)])))
    0 5 (one_frame reviews_schema)
  = (raise (KeyError "hits"),
     asked (one_frame reviews_schema) (QSearch a_client "reviews" 5)).
Proof.
  apply (head_without_hits
           (H := with_search reviews_store
                   (ok (VDict [("timed_out", VBool true)])))
           0 reviews_frame 5 (one_frame reviews_schema)
           [("timed_out", VBool true)]).
  - reflexivity.
  - reflexivity.
  - reflexivity.
Defined.

(** X8.  A hit without the key [_source], after hits that have it and
    flatten, makes [head] raise [KeyError('_source')]: no frame of the hits
    before it is returned. *)
Theorem head_hit_without_source `{Collaborators} (self : nat)
    (obj : DataFrameObj) (n : Z) (w : world) (results : value)
    (good rest : list value) (items : list (string * value)) :
  heap w !! self = Some obj →
  client_search (client obj) (index_pattern obj) n = ok results →
  hits_of results = ok (good ++ VDict items :: rest) →
  Forall (λ hit, ∃ doc row,
            py_getitem hit "_source" = ok doc
            ∧ flatten_dict (mappings obj) doc = ok row) good →
  dict_get items "_source" = None →
  DataFrame.head self n w
  = (raise (KeyError "_source"),
     asked w (QSearch (client obj) (index_pattern obj) n)).
Proof.
  intros Hself Hsearch Hhits Hgood Hnone.
  rewrite (head_run _ _ _ _ Hself), Hsearch. step_ok.
  rewrite _es_results_to_pandas_stages, Hhits. step_ok.
  rewrite for_each_app.
  destruct (for_each_append_row_good _ good [] Hgood) as [rows ->].
  step_ok. cbn [for_each]. unfold append_row at 1, py_getitem.
  by rewrite Hnone.
Qed.

Lemma head_hit_without_source_witness :
  DataFrame.head
    (H := with_search reviews_store
            (ok (VDict [("hits", VDict [("hits",
                   VList [VDict [("_source", VDict [("rating", VInt 5)])];
                          VDict [("_id", VStr "7")]])])])))
    0 5 (one_frame reviews_schema)
  = (raise (KeyError "_source"),
     asked (one_frame reviews_schema) (QSearch a_client "reviews" 5)).
Proof.
  apply (head_hit_without_source
           (H := with_search reviews_store
                   (ok (VDict [("hits", VDict [("hits",
                      VList [VDict [("_source", VDict [("rating", VInt 5)])];
                             VDict [("_id", VStr "7")]])])])))
           0 reviews_frame 5 (one_frame reviews_schema)
           (VDict [("hits", VDict [("hits",
              VList [VDict [("_source", VDict [("rating", VInt 5)])];
                     VDict [("_id", VStr "7")]])])])
           [VDict [("_source", VDict [("rating", VInt 5)])]] []
           [("_id", VStr "7")]).
  - reflexivity.
  - reflexivity.
  - reflexivity.
  - repeat constructor. eexists _, _. split; vm_compute; reflexivity.
  - reflexivity.
Defined.



(** X10.  When a source field is in none of the fetched documents and
    [astype] refuses the column of [None], one for each document, for the
    dtype of the field, [head] raises and returns no frame. *)
Theorem head_astype_raises `{Collaborators} (self : nat) (obj : DataFrameObj)
    (n : Z) (w : world) (results : value) (docs : list value) (f : string)
    (e : exn) :
  heap w !! self = Some obj →
  client_search (client obj) (index_pattern obj) n = ok results →
  documents results = ok docs →
  Forall (λ doc, ∃ leaves,
            coerce_all (mappings obj) (occurrences (mappings obj) doc "")
            = ok leaves) docs →
  f ∈ source_fields (mappings obj) →
  Forall (λ doc, occurrences_of (mappings obj) doc f = []) docs →
  astype (replicate (length docs) (Cell VNone))
    (source_field_pd_dtype (mappings obj) f).2 = raise e →
  ∃ e', DataFrame.head self n w
        = (raise e', asked w (QSearch (client obj) (index_pattern obj) n)).
Proof.
  intros Hself Hsearch Hdocs Hcoerce Hfield Habsent Hraises.
  rewrite (head_run _ _ _ _ Hself), Hsearch. step_ok.
  rewrite _es_results_to_pandas_stages.
  unfold documents in Hdocs.
  apply rbind_ok in Hdocs as (hits & Hhits & Hdocs). rewrite Hhits. step_ok.
  apply for_each_documents_ok in Hdocs as (docs' & -> & Hdocs).
  destruct (for_each_append_row_returns (mappings obj) hits docs' []
              Hdocs Hcoerce) as [rows Hrows].
  rewrite Hrows. step_ok.
  apply for_each_append_row_ok in Hrows as (rows' & -> & Hrows).
  pose proof (rows_without_field _ _ _ _ f Hrows Hdocs Habsent) as Hnone.
  assert (Hmissing : f ∈ missing_columns (source_fields (mappings obj))
                                         (pd_DataFrame rows')).
  { apply elem_of_missing_columns. split; [done | ].
    rewrite df_columns_pd_DataFrame, elem_of_union_keys.
    intros (row & Hrow & Hkey). rewrite Forall_forall in Hnone.
    apply Hnone in Hrow. by apply dict_get_None in Hrow. }
  destruct (for_each_fill_missing_raises (mappings obj) _
              (pd_DataFrame rows') f e Hmissing) as [e' He'].
  { rewrite index_pd_DataFrame. simpl in Hraises.
    by rewrite <- (Forall2_length _ _ _ Hrows), (Forall2_length _ _ _ Hdocs). }
  exists e'. simpl. by rewrite He'.
Qed.

Lemma head_astype_raises_witness :
  ∃ e, DataFrame.head (H := with_astype reviews_store strict_astype) 0 5
         (one_frame reviews_schema)
       = (raise e,
          asked (one_frame reviews_schema) (QSearch a_client "reviews" 5)).
Proof.
  apply (head_astype_raises (H := with_astype reviews_store strict_astype) 0
           reviews_frame 5 (one_frame reviews_schema)
           (VDict [("hits", VDict [("hits",
              VList ((λ d, VDict [("_source", d)]) <$> reviews_docs))])])
           reviews_docs "rating"
           (TypeError "int() argument must be a number")).
  - reflexivity.
  - vm_compute; reflexivity.
  - vm_compute; reflexivity.
  - repeat constructor; eexists; vm_compute; reflexivity.
  - vm_compute. right. right. left.
  - repeat constructor.
  - reflexivity.
Defined.

(** ** The table that [describe] makes *)

Section DescribeTable.
Context `{Collaborators}.

(** The aggregations asked for the fields, by the calls that ask them *)
Lemma elem_of_metrics (fields : list string) (a : agg) :
  a ∈ concat (DataFrame.metrics <$> fields)
  ↔ ∃ f, f ∈ fields ∧ a ∈ DataFrame.metrics f.
Proof.
  induction fields as [ | f0 fields IH]; cbn [fmap list_fmap concat].
  - rewrite elem_of_nil. split; [done | ].
    intros (f & Hf & _). by apply elem_of_nil in Hf.
  - rewrite elem_of_app, IH. split.
    + intros [Ha | (f & Hf & Ha)]; [exists f0 | exists f];
        (split; [ | done]); [left | by right].
    + intros (f & Hf & Ha). apply elem_of_cons in Hf as [-> | Hf];
        [by left | right; by exists f].
Qed.

Lemma elem_of_metrics_field (f : string) (a : agg) :
  a ∈ DataFrame.metrics f
  ↔ a = {| agg_name := "extended_stats_" +:+ f;
           agg_kind := "extended_stats"; agg_field := f |}
    ∨ a = {| agg_name := "percentiles_" +:+ f;
             agg_kind := "percentiles"; agg_field := f |}.
Proof.
  unfold DataFrame.metrics. by rewrite elem_of_cons, list_elem_of_singleton.
Qed.

(** The name of an aggregation of [describe] tells which it is, and of
    which field. *)
Lemma metrics_name_inj (f g : string) (a b : agg) :
  a ∈ DataFrame.metrics f → b ∈ DataFrame.metrics g →
  agg_name a = agg_name b → a = b ∧ f = g.
Proof.
  rewrite !elem_of_metrics_field.
  intros [-> | ->] [-> | ->]; cbn [agg_name]; intros Heq;
    try discriminate Heq; by simplify_eq.
Qed.

Lemma metrics_names_NoDup (fields : list string) :
  NoDup fields → NoDup (agg_name <$> concat (DataFrame.metrics <$> fields)).
Proof.
  induction 1 as [ | f fields Hf Hdup IH]; [constructor | ].
  cbn [fmap list_fmap concat DataFrame.metrics app agg_name].
  assert (Hfresh : ∀ a, a ∈ DataFrame.metrics f →
            agg_name a ∉ agg_name <$> concat (DataFrame.metrics <$> fields)).
  { intros a Ha Hin. apply list_elem_of_fmap in Hin as (b & Heq & Hb).
    apply elem_of_metrics in Hb as (g & Hg & Hb).
    destruct (metrics_name_inj _ _ _ _ Ha Hb Heq) as [_ ->]. done. }
  constructor; [ | constructor; [ | done]].
  - rewrite elem_of_cons. intros [Heq | Hin]; [discriminate Heq | ].
    revert Hin. apply (Hfresh {| agg_name := "extended_stats_" +:+ f;
                                 agg_kind := "extended_stats";
                                 agg_field := f |}).
    apply elem_of_metrics_field. by left.
  - apply (Hfresh {| agg_name := "percentiles_" +:+ f;
                     agg_kind := "percentiles"; agg_field := f |}).
    apply elem_of_metrics_field. by right.
Qed.

(** [metric] on a dict of aggregations: the names *)
Lemma agg_set_names (aggs : list agg) (a : agg) :
  agg_name <$> agg_set aggs a
  = if decide (agg_name a ∈ agg_name <$> aggs) then agg_name <$> aggs
    else (agg_name <$> aggs) ++ [agg_name a].
Proof.
  induction aggs as [ | a' aggs IH]; cbn [agg_set fmap list_fmap].
  - rewrite decide_False; [done | apply not_elem_of_nil].
  - destruct (decide (agg_name a' = agg_name a)) as [Heq | Hne].
    + rewrite decide_True by (rewrite Heq; left).
      cbn [fmap list_fmap]. by rewrite Heq.
    + cbn [fmap list_fmap]. rewrite IH.
      destruct (decide (agg_name a ∈ agg_name <$> aggs)) as [Hin | Hnot].
      * rewrite decide_True; [done | by right].
      * rewrite decide_False; [done | ].
        rewrite elem_of_cons. intros [? | ?]; [congruence | done].
Qed.

Lemma agg_set_fresh (aggs : list agg) (a : agg) :
  agg_name a ∉ agg_name <$> aggs → agg_set aggs a = aggs ++ [a].
Proof.
  induction aggs as [ | a' aggs IH]; cbn [agg_set fmap list_fmap];
    [done | ].
  rewrite not_elem_of_cons. intros [Hne Hnot].
  rewrite decide_False by congruence. by rewrite IH.
Qed.

Lemma agg_set_NoDup (aggs : list agg) (a : agg) :
  NoDup (agg_name <$> aggs) → NoDup (agg_name <$> agg_set aggs a).
Proof.
  intros Hdup. rewrite agg_set_names.
  destruct (decide (agg_name a ∈ agg_name <$> aggs)) as [Hin | Hnot];
    [done | ].
  apply NoDup_app. split; [done | ]. split; [ | apply NoDup_singleton].
  intros name Hname Heq. apply list_elem_of_singleton in Heq as ->. done.
Qed.

(** An entry of the dict after [metric] is the one set or one that was
    there; the one set is there. *)
Lemma elem_of_agg_set (aggs : list agg) (a b : agg) :
  b ∈ agg_set aggs a → b = a ∨ b ∈ aggs.
Proof.
  induction aggs as [ | a' aggs IH]; cbn [agg_set].
  - rewrite list_elem_of_singleton. by left.
  - destruct (decide (agg_name a' = agg_name a)).
    + rewrite !elem_of_cons. intros [-> | Hin]; [by left | right; by right].
    + rewrite !elem_of_cons. intros [-> | Hin]; [right; by left | ].
      destruct (IH Hin) as [-> | ?]; [by left | right; by right].
Qed.

Lemma agg_set_elem_of (aggs : list agg) (a : agg) : a ∈ agg_set aggs a.
Proof.
  induction aggs as [ | a' aggs IH]; cbn [agg_set]; [left | ].
  destruct (decide (agg_name a' = agg_name a)); [left | by right].
Qed.

(** An entry of another name stays. *)
Lemma agg_set_keeps (aggs : list agg) (a b : agg) :
  b ∈ aggs → agg_name b ≠ agg_name a → b ∈ agg_set aggs a.
Proof.
  induction aggs as [ | a' aggs IH]; cbn [agg_set];
    [by intros ?%elem_of_nil | ].
  rewrite elem_of_cons. intros [-> | Hin] Hne.
  - rewrite decide_False by done. left.
  - destruct (decide (agg_name a' = agg_name a)); right; [done | by apply IH].
Qed.

(** Calls with names that are all new, and all different, go to the end
    in their order. *)
Lemma foldl_agg_set_fresh (l : list agg) : ∀ acc,
  NoDup (agg_name <$> l) →
  (∀ a, a ∈ l → agg_name a ∉ agg_name <$> acc) →
  foldl agg_set acc l = acc ++ l.
Proof.
  induction l as [ | a l IH]; intros acc Hdup Hfresh; cbn [foldl].
  - by rewrite app_nil_r.
  - cbn [fmap list_fmap] in Hdup. apply NoDup_cons in Hdup as [Ha Hdup].
    rewrite agg_set_fresh by (apply Hfresh; left).
    rewrite IH; [by rewrite <- app_assoc | done | ].
    intros a' Ha'. rewrite fmap_app, elem_of_app.
    cbn [fmap list_fmap]. rewrite list_elem_of_singleton.
    intros [Hin | Heq].
    + by apply (Hfresh a'); [right | ].
    + apply Ha. rewrite <- Heq. apply list_elem_of_fmap. by exists a'.
Qed.

Lemma foldl_agg_set_NoDup (l : list agg) : ∀ acc,
  NoDup (agg_name <$> acc) → NoDup (agg_name <$> foldl agg_set acc l).
Proof.
  induction l as [ | a l IH]; intros acc Hdup; cbn [foldl]; [done | ].
  by apply IH, agg_set_NoDup.
Qed.

(** The entries after calls whose names tell them apart: those called
    for, and those that were there. *)
Lemma elem_of_foldl_agg_set (l : list agg) : ∀ acc b,
  (∀ a a', a ∈ acc ++ l → a' ∈ acc ++ l →
           agg_name a = agg_name a' → a = a') →
  b ∈ foldl agg_set acc l ↔ b ∈ acc ∨ b ∈ l.
Proof.
  induction l as [ | a l IH]; intros acc b Hinj; cbn [foldl].
  - rewrite elem_of_nil. tauto.
  - rewrite IH.
    + rewrite elem_of_cons. split.
      * intros [Hin | Hin]; [ | by right; right].
        apply elem_of_agg_set in Hin as [-> | Hin]; [right; by left | by left].
      * intros [Hin | [-> | Hin]]; [ | left; apply agg_set_elem_of
                                      | by right].
        left. destruct (decide (agg_name b = agg_name a)) as [Heq | Hne].
        -- assert (b = a) as ->; [ | apply agg_set_elem_of].
           apply Hinj; [ | | done]; rewrite elem_of_app;
             [by left | right; left].
        -- by apply agg_set_keeps.
    + intros a1 a2 H1 H2. apply Hinj.
      * rewrite elem_of_app in H1. rewrite elem_of_app, elem_of_cons.
        destruct H1 as [H1 | H1]; [ | right; by right].
        apply elem_of_agg_set in H1 as [-> | H1]; [right; by left | by left].
      * rewrite elem_of_app in H2. rewrite elem_of_app, elem_of_cons.
        destruct H2 as [H2 | H2]; [ | right; by right].
        apply elem_of_agg_set in H2 as [-> | H2]; [right; by left | by left].
Qed.

(** For fields that are all different, the aggregations of the search are
    the calls in their order. *)
Lemma search_aggs_NoDup (fields : list string) :
  NoDup fields →
  DataFrame.search_aggs fields = concat (DataFrame.metrics <$> fields).
Proof.
  intros Hdup. unfold DataFrame.search_aggs.
  rewrite foldl_agg_set_fresh; [done | by apply metrics_names_NoDup | ].
  intros a _. apply not_elem_of_nil.
Qed.

Lemma elem_of_search_aggs (fields : list string) (a : agg) :
  a ∈ DataFrame.search_aggs fields
  ↔ ∃ f, f ∈ fields ∧ a ∈ DataFrame.metrics f.
Proof.
  unfold DataFrame.search_aggs. rewrite elem_of_foldl_agg_set.
  - rewrite elem_of_metrics, elem_of_nil. tauto.
  - intros a1 a2. rewrite !app_nil_l, !elem_of_metrics.
    intros (f & _ & H1) (g & _ & H2) Heq.
    by destruct (metrics_name_inj _ _ _ _ H1 H2 Heq).
Qed.

Lemma field_values_length aggregations field values :
  DataFrame.field_values aggregations field = ok values →
  length values = 8%nat.
Proof.
  unfold DataFrame.field_values. intros Hvalues.
  repeat (apply rbind_ok in Hvalues as (? & _ & Hvalues)).
  by injection Hvalues as <-.
Qed.

(** Some value is not [None] exactly when fewer are [None] than there
    are. *)
Lemma count_None_lt (values : list value) :
  (DataFrame.count_None values < length values)%nat
  ↔ ∃ v, v ∈ values ∧ is_None v = false.
Proof.
  unfold DataFrame.count_None.
  induction values as [ | v values IH]; simpl.
  - split; [lia | ]. intros (v & Hin & _). by apply elem_of_nil in Hin.
  - rewrite filter_cons. destruct (decide (is_None v = true)) as [Hv | Hv].
    + simpl. rewrite <- Nat.succ_lt_mono, IH. split.
      * intros (v' & Hin & Hsome). exists v'. split; [by right | done].
      * intros (v' & Hin & Hsome). exists v'. split; [ | done].
        apply elem_of_cons in Hin as [-> | Hin]; [congruence | done].
    + split; [ | intros _; pose proof (length_filter (λ v, is_None v = true)
                                        values); lia].
      intros _. exists v. split; [left | by destruct (is_None v)].
Qed.

Lemma dict_set_Forall {V} (P : string * V → Prop) (d : list (string * V))
    (k : string) (v : V) :
  Forall P d → P (k, v) → Forall P (dict_set d k v).
Proof.
  intros Hd Hkv. induction Hd as [ | [k' v'] d Hk' Hd IH]; simpl.
  - by constructor.
  - destruct (decide (k' = k)); by constructor.
Qed.

Lemma dict_set_NoDup {V} (d : list (string * V)) (k : string) (v : V) :
  NoDup (dict_keys d) → NoDup (dict_keys (dict_set d k v)).
Proof.
  intros Hd. destruct (decide (k ∈ dict_keys d)) as [Hin | Hnot].
  - by rewrite dict_keys_set_old.
  - rewrite dict_keys_set_new by done. apply NoDup_app. split; [done | ].
    split; [ | apply NoDup_singleton].
    intros k' Hk' Heq. apply list_elem_of_singleton in Heq as ->. done.
Qed.

(** The second loop of [describe] keeps what holds of the pairs it starts
    with and of every field with its values. *)
Lemma for_each_collect_Forall aggregations
    (P : string * list value → Prop) fields : ∀ acc results,
  for_each fields (DataFrame.collect aggregations) acc = ok results →
  Forall P acc →
  (∀ f values, f ∈ fields →
     DataFrame.field_values aggregations f = ok values → P (f, values)) →
  Forall P results.
Proof.
  induction fields as [ | f fields IH]; intros acc results; cbn [for_each].
  - by intros [= <-].
  - intros Hloop Hacc Hfields.
    apply rbind_ok in Hloop as (acc1 & Hcollect & Hloop).
    unfold DataFrame.collect in Hcollect.
    apply rbind_ok in Hcollect as (values & Hvalues & Hcollect).
    apply (IH _ _ Hloop).
    + destruct (decide (DataFrame.count_None values < length values)%nat);
        injection Hcollect as <-; [ | done].
      apply dict_set_Forall; [done | ]. apply Hfields; [left | done].
    + intros f' values' Hin. apply Hfields. by right.
Qed.

Lemma for_each_collect_NoDup aggregations fields : ∀ acc results,
  for_each fields (DataFrame.collect aggregations) acc = ok results →
  NoDup (dict_keys acc) → NoDup (dict_keys results).
Proof.
  induction fields as [ | f fields IH]; intros acc results; cbn [for_each].
  - by intros [= <-].
  - intros Hloop Hacc.
    apply rbind_ok in Hloop as (acc1 & Hcollect & Hloop).
    unfold DataFrame.collect in Hcollect.
    apply rbind_ok in Hcollect as (values & Hvalues & Hcollect).
    apply (IH _ _ Hloop).
    destruct (decide (DataFrame.count_None values < length values)%nat);
      injection Hcollect as <-; [by apply dict_set_NoDup | done].
Qed.

(** For fields that are all different, the loop adds the kept ones in
    their order. *)
Lemma for_each_collect_keys aggregations fields : ∀ acc results,
  for_each fields (DataFrame.collect aggregations) acc = ok results →
  NoDup fields →
  (∀ f, f ∈ fields → f ∉ dict_keys acc) →
  dict_keys results
  = dict_keys acc ++ filter (λ f, kept aggregations f = true) fields.
Proof.
  induction fields as [ | f fields IH]; intros acc results; cbn [for_each].
  - intros [= <-] _ _. by rewrite app_nil_r.
  - intros Hloop Hdup Hfresh.
    apply rbind_ok in Hloop as (acc1 & Hcollect & Hloop).
    unfold DataFrame.collect in Hcollect.
    apply rbind_ok in Hcollect as (values & Hvalues & Hcollect).
    apply NoDup_cons in Hdup as [Hf Hdup].
    rewrite filter_cons.
    assert (Hkept : kept aggregations f
                    = bool_decide (DataFrame.count_None values
                                   < length values)%nat)
      by (unfold kept; by rewrite Hvalues).
    destruct (decide (DataFrame.count_None values < length values)%nat)
      as [Hsome | Hnone]; injection Hcollect as <-.
    + rewrite bool_decide_eq_true_2 in Hkept by done.
      rewrite decide_True by done.
      rewrite (IH _ _ Hloop Hdup).
      * rewrite dict_keys_set_new by (apply Hfresh; left).
        by rewrite <- app_assoc.
      * intros f' Hf'. rewrite dict_keys_set_new by (apply Hfresh; left).
        rewrite elem_of_app, list_elem_of_singleton.
        intros [Hin | ->]; [ | done]. by apply (Hfresh f'); [right | ].
    + rewrite bool_decide_eq_false_2 in Hkept by done.
      rewrite decide_False by (by rewrite Hkept).
      apply (IH _ _ Hloop Hdup). intros f' Hf'. apply Hfresh. by right.
Qed.

(** What [describe] returns is the table of what its loop collected. *)
Lemma describe_ok self obj w df w' :
  heap w !! self = Some obj →
  DataFrame.describe self w = (ok df, w') →
  ∃ aggregations results,
    search_execute (client obj) (index_pattern obj)
      (DataFrame.search_aggs (numeric_source_fields (mappings obj)))
    = ok aggregations
    ∧ for_each (numeric_source_fields (mappings obj))
        (DataFrame.collect aggregations) [] = ok results
    ∧ df = pd_DataFrame_of_dict results stats_labels.
Proof.
  intros Hself Hrun. rewrite (describe_run _ _ _ Hself) in Hrun.
  injection Hrun as Hres _.
  apply rbind_ok in Hres as (aggregations & Hexecute & Hres).
  apply rbind_ok in Hres as (results & Hresults & [= <-]).
  by exists aggregations, results.
Qed.

End DescribeTable.

(** X11.  [describe] sends one request to the store, whether it returns
    or raises.  The aggregations of the request are the
    [extended_stats_<field>] and the [percentiles_<field>] of the numeric
    fields of the mappings and nothing else, each name once, also for a
    field that the mappings list twice; when the numeric fields are all
    different they stand in the order of the mappings, each field's
    [extended_stats] and then its [percentiles].  An exception of the store
    is raised as it is. *)
Theorem describe_one_query `{Collaborators} (self : nat) (obj : DataFrameObj)
    (w : world) :
  heap w !! self = Some obj →
  ∃ aggs,
    (DataFrame.describe self w).2
    = asked w (QExecute (client obj) (index_pattern obj) aggs)
    ∧ (∀ a, a ∈ aggs ↔ ∃ f, f ∈ numeric_source_fields (mappings obj)
                            ∧ a ∈ DataFrame.metrics f)
    ∧ NoDup (agg_name <$> aggs)
    ∧ (NoDup (numeric_source_fields (mappings obj)) →
       aggs = concat (DataFrame.metrics
                        <$> numeric_source_fields (mappings obj)))
    ∧ ∀ e, search_execute (client obj) (index_pattern obj) aggs = raise e →
           (DataFrame.describe self w).1 = raise e.
Proof.
  intros Hself.
  exists (DataFrame.search_aggs (numeric_source_fields (mappings obj))).
  rewrite (describe_run _ _ _ Hself). split; [done | ].
  split; [apply elem_of_search_aggs | ].
  split; [apply foldl_agg_set_NoDup; constructor | ].
  split; [apply search_aggs_NoDup | ]. by intros e ->.
Qed.

Lemma describe_one_query_witness :
  ∃ aggs,
    (DataFrame.describe (H := sales_store) 0 (one_frame sales_schema)).2
    = asked (one_frame sales_schema) (QExecute a_client "reviews" aggs)
    ∧ aggs = [ {| agg_name := "extended_stats_price";
                  agg_kind := "extended_stats"; agg_field := "price" |};
               {| agg_name := "percentiles_price";
                  agg_kind := "percentiles"; agg_field := "price" |};
               {| agg_name := "extended_stats_rating";
                  agg_kind := "extended_stats"; agg_field := "rating" |};
               {| agg_name := "percentiles_rating";
                  agg_kind := "percentiles"; agg_field := "rating" |} ].
Proof.
  destruct (describe_one_query (H := sales_store) 0 sales_frame
              (one_frame sales_schema) eq_refl)
    as (aggs & Hrun & _ & _ & Horder & _).
  exists aggs. split; [exact Hrun | ]. apply Horder.
  apply NoDup_cons. split; [ | apply NoDup_singleton].
  rewrite list_elem_of_singleton. discriminate.
Defined.

(** X12.  The table that [describe] returns has the eight rows [count],
    [mean], [std], [min], [25%], [50%], [75%] and [max]; its columns are
    numeric fields of the mappings, no two with the same name, each of
    eight cells. *)
Theorem describe_table_shape `{Collaborators} (self : nat)
    (obj : DataFrameObj) (w w' : world) (df : Frame) :
  heap w !! self = Some obj →
  DataFrame.describe self w = (ok df, w') →
  index df = LStr <$> ["count"; "mean"; "std"; "min"; "25%"; "50%"; "75%";
                       "max"]
  ∧ NoDup (df_columns df)
  ∧ Forall (λ col : string * list cell,
              col.1 ∈ numeric_source_fields (mappings obj)
              ∧ length col.2 = 8%nat)
           (data df).
Proof.
  intros Hself Hrun.
  destruct (describe_ok _ _ _ _ _ Hself Hrun)
    as (aggregations & results & _ & Hresults & ->).
  split; [done | ]. split.
  - rewrite df_columns_of_dict.
    apply (for_each_collect_NoDup _ _ _ _ Hresults). constructor.
  - unfold pd_DataFrame_of_dict. cbn [data]. apply Forall_fmap.
    apply (for_each_collect_Forall _ _ _ _ _ Hresults); [constructor | ].
    intros f values Hf Hvalues. simpl. split; [done | ].
    unfold pd_column. rewrite !length_fmap. by eapply field_values_length.
Qed.

Lemma describe_table_shape_witness :
  index sales_table
  = LStr <$> ["count"; "mean"; "std"; "min"; "25%"; "50%"; "75%"; "max"]
  ∧ NoDup (df_columns sales_table)
  ∧ Forall (λ col : string * list cell,
              col.1 ∈ numeric_source_fields sales_schema
              ∧ length col.2 = 8%nat)
           (data sales_table).
Proof.
  apply (describe_table_shape (H := sales_store) 0 sales_frame
           (one_frame sales_schema)
           (asked (one_frame sales_schema) (stats_request sales_frame))).
  - reflexivity.
  - vm_compute; reflexivity.
Defined.

(** X13.  A numeric field is a column of the table exactly when one of its
    eight statistics is not [None]; the column then is what pandas makes,
    with the dtype it infers, of the eight statistics as the store gave
    them, in the order count, avg, std_deviation, min, 25.0, 50.0, 75.0,
    max. *)
Theorem describe_column `{Collaborators} (self : nat) (obj : DataFrameObj)
    (w w' : world) (aggregations : value) (df : Frame) (f : string)
    (values : list value) :
  heap w !! self = Some obj →
  search_execute (client obj) (index_pattern obj)
    (DataFrame.search_aggs (numeric_source_fields (mappings obj)))
  = ok aggregations →
  DataFrame.describe self w = (ok df, w') →
  f ∈ numeric_source_fields (mappings obj) →
  DataFrame.field_values aggregations f = ok values →
  (f ∈ df_columns df ↔ ∃ v, v ∈ values ∧ is_None v = false)
  ∧ (f ∈ df_columns df →
     dict_get (data df) f = Some (pd_column (Cell <$> values))).
Proof.
  intros Hself Hexecute Hrun Hf Hvalues.
  destruct (describe_ok _ _ _ _ _ Hself Hrun)
    as (aggregations' & results & Hexecute' & Hresults & ->).
  assert (aggregations' = aggregations) as ->
    by (unfold ok in *; congruence).
  apply for_each_collect_ok in Hresults as [_ Hget].
  specialize (Hget _ _ Hvalues).
  rewrite df_columns_of_dict, data_of_dict_get, Hget, <- count_None_lt.
  destruct (decide (f ∈ _ ∧ _)) as [[_ Hsome] | Hnone].
  - split; [ | done]. split; [done | ]. intros _.
    by eapply dict_get_Some_key.
  - assert (Hnot : f ∉ dict_keys results) by (by apply dict_get_None).
    split; [ | done]. split; [done | ]. intros Hsome. destruct Hnone.
    by split.
Qed.

Lemma describe_column_witness :
  ("rating" ∈ df_columns sales_table
   ↔ ∃ v, v ∈ [VInt 3; VInt 3; VInt 2; VInt 1; VInt 2; VInt 3; VInt 4;
               VInt 5] ∧ is_None v = false)
  ∧ ("rating" ∈ df_columns sales_table →
     dict_get (data sales_table) "rating"
     = Some (pd_column (H := sales_store)
               (Cell <$> [VInt 3; VInt 3; VInt 2; VInt 1; VInt 2; VInt 3;
                          VInt 4; VInt 5]))).
Proof.
  apply (describe_column (H := sales_store) 0 sales_frame
           (one_frame sales_schema)
           (asked (one_frame sales_schema) (stats_request sales_frame))
           sales_stats sales_table "rating").
  - reflexivity.
  - reflexivity.
  - vm_compute; reflexivity.
  - right. left.
  - vm_compute; reflexivity.
Defined.

(** X14.  When the numeric fields of the mappings are all different, the
    columns of the table are the fields that are kept, in the order of the
    mappings. *)
Theorem describe_column_order `{Collaborators} (self : nat)
    (obj : DataFrameObj) (w w' : world) (aggregations : value) (df : Frame) :
  heap w !! self = Some obj →
  search_execute (client obj) (index_pattern obj)
    (concat (DataFrame.metrics <$> numeric_source_fields (mappings obj)))
  = ok aggregations →
  DataFrame.describe self w = (ok df, w') →
  NoDup (numeric_source_fields (mappings obj)) →
  df_columns df
  = filter (λ f, kept aggregations f = true)
           (numeric_source_fields (mappings obj)).
Proof.
  intros Hself Hexecute Hrun Hdup.
  destruct (describe_ok _ _ _ _ _ Hself Hrun)
    as (aggregations' & results & Hexecute' & Hresults & ->).
  rewrite (search_aggs_NoDup _ Hdup) in Hexecute'.
  assert (aggregations' = aggregations) as ->
    by (unfold ok in *; congruence).
  rewrite df_columns_of_dict.
  rewrite (for_each_collect_keys _ _ _ _ Hresults Hdup); [done | ].
  intros f _. apply not_elem_of_nil.
Qed.

Lemma describe_column_order_witness :
  df_columns sales_table
  = filter (λ f, kept sales_stats f = true) ["price"; "rating"].
Proof.
  apply (describe_column_order (H := sales_store) 0 sales_frame
           (one_frame sales_schema)
           (asked (one_frame sales_schema) (stats_request sales_frame))
           sales_stats sales_table).
  - reflexivity.
  - reflexivity.
  - vm_compute; reflexivity.
  - apply NoDup_cons. split; [ | apply NoDup_singleton].
    rewrite list_elem_of_singleton. discriminate.
Defined.

(** X15.  An answer of the store that lacks the statistics of the first
    numeric field makes [describe] raise the [KeyError] of the missing
    aggregation: no table of the other fields is returned. *)
Theorem describe_missing_statistics `{Collaborators} (self : nat)
    (obj : DataFrameObj) (w : world) (f : string) (rest : list string)
    (items : list (string * value)) :
  heap w !! self = Some obj →
  numeric_source_fields (mappings obj) = f :: rest →
  search_execute (client obj) (index_pattern obj)
    (DataFrame.search_aggs (numeric_source_fields (mappings obj)))
  = ok (VDict items) →
  dict_get items ("extended_stats_" +:+ f) = None →
  DataFrame.describe self w
  = (raise (KeyError ("extended_stats_" +:+ f)), asked w (stats_request obj)).
Proof.
  intros Hself Hfields Hexecute Hnone.
  rewrite (describe_run _ _ _ Hself), Hexecute. step_ok.
  rewrite Hfields. cbn [for_each].
  unfold DataFrame.collect at 1, DataFrame.field_values, DataFrame.stat at 1,
    py_getitem at 1.
  by rewrite Hnone.
Qed.

Lemma describe_missing_statistics_witness :
  DataFrame.describe
    (H := with_execute sales_store (ok (VDict (some_stats "rating"))))
    0 (one_frame sales_schema)
  = (raise (KeyError "extended_stats_price"),
     asked (one_frame sales_schema) (stats_request sales_frame)).
Proof.
  apply (describe_missing_statistics
           (H := with_execute sales_store (ok (VDict (some_stats "rating"))))
           0 sales_frame (one_frame sales_schema) "price" ["rating"]
           (some_stats "rating")).
  - reflexivity.
  - reflexivity.
  - reflexivity.
  - reflexivity.
Defined.

(** X16.  For mappings without numeric fields, [describe] still sends its
    request, with no aggregation in it, and returns the table of the eight
    rows without columns. *)
Theorem describe_no_numeric_fields `{Collaborators} (self : nat)
    (obj : DataFrameObj) (w : world) (aggregations : value) :
  heap w !! self = Some obj →
  numeric_source_fields (mappings obj) = [] →
  search_execute (client obj) (index_pattern obj) [] = ok aggregations →
  DataFrame.describe self w
  = (ok {| index := LStr <$> stats_labels; data := [] |},
     asked w (QExecute (client obj) (index_pattern obj) [])).
Proof.
  intros Hself Hfields Hexecute.
  rewrite (describe_run _ _ _ Hself). unfold stats_request.
  rewrite Hfields. unfold DataFrame.search_aggs.
  cbn [fmap list_fmap concat foldl]. rewrite Hexecute. by step_ok.
Qed.

Lemma describe_no_numeric_fields_witness :
  DataFrame.describe (H := reviews_store) 0 (one_frame nested_schema)
  = (ok {| index := LStr <$> stats_labels; data := [] |},
     asked (one_frame nested_schema) (QExecute a_client "reviews" [])).
Proof.
  apply (describe_no_numeric_fields (H := reviews_store) 0
           {| client := a_client; index_pattern := "reviews";
              mappings := nested_schema; operations := [] |}
           (one_frame nested_schema) VNone).
  - reflexivity.
  - reflexivity.
  - reflexivity.
Defined.

(** ** Shape, subscripts and construction *)

Lemma len_run_count `{Collaborators} (self : nat) (obj : DataFrameObj)
    (w : world) :
  heap w !! self = Some obj →
  DataFrame.len self w
  = (rbind (client_count (client obj) (index_pattern obj))
       (λ rows, if decide (rows < 0)
                then raise (ValueError "__len__() should return >= 0")
                else if decide (maxsize < rows)
                     then raise (OverflowError
                            "cannot fit 'int' into an index-sized integer")
                     else ok rows),
     asked w (QCount (client obj) (index_pattern obj))).
Proof.
  intros Hself.
  unfold DataFrame.len, DataFrame.__len__, bind, self_, ask, throw, ret.
  rewrite Hself. step_ok.
  destruct (client_count (client obj) (index_pattern obj)) as [e | rows];
    [done | ].
  cbn [rbind]. destruct (decide (rows < 0)); [done | ].
  by destruct (decide (maxsize < rows)).
Qed.

(** X17.  [shape] returns no shape without a count in the range of
    [len]: an exception of the count is raised as it is, a negative count
    raises [ValueError] and a count above [sys.maxsize] raises
    [OverflowError], each after the one count query. *)
Theorem shape_raises `{Collaborators} (self : nat) (obj : DataFrameObj)
    (w : world) :
  heap w !! self = Some obj →
  (∀ e, client_count (client obj) (index_pattern obj) = raise e →
        DataFrame.shape self w
        = (raise e, asked w (QCount (client obj) (index_pattern obj))))
  ∧ (∀ rows, client_count (client obj) (index_pattern obj) = ok rows →
       rows < 0 →
       DataFrame.shape self w
       = (raise (ValueError "__len__() should return >= 0"),
          asked w (QCount (client obj) (index_pattern obj))))
  ∧ (∀ rows, client_count (client obj) (index_pattern obj) = ok rows →
       maxsize < rows →
       DataFrame.shape self w
       = (raise (OverflowError "cannot fit 'int' into an index-sized integer"),
          asked w (QCount (client obj) (index_pattern obj)))).
Proof.
  intros Hself. unfold DataFrame.shape, bind.
  rewrite (len_run_count _ _ _ Hself). repeat split.
  - by intros e ->.
  - intros rows -> Hneg. step_ok. by rewrite decide_True.
  - intros rows -> Hbig. step_ok.
    rewrite decide_False by (unfold maxsize in Hbig; lia).
    by rewrite decide_True.
Qed.

Lemma shape_raises_witness :
  DataFrame.shape (H := with_count reviews_store (ok (-1))) 0
    (one_frame reviews_schema)
  = (raise (ValueError "__len__() should return >= 0"),
     asked (one_frame reviews_schema) (QCount a_client "reviews")).
Proof.
  destruct (shape_raises (H := with_count reviews_store (ok (-1))) 0
              reviews_frame (one_frame reviews_schema) eq_refl)
    as (_ & Hneg & _).
  apply (Hneg (-1)); [reflexivity | reflexivity].
Defined.

(** X18.  [__getitem__] and [columns] send nothing to the store, whatever
    the subscript and whether a frame is made or an error raised. *)
Theorem getitem_columns_no_query `{Collaborators} (self : nat)
    (obj : DataFrameObj) (w : world) :
  heap w !! self = Some obj →
  (∀ item, queries (DataFrame.__getitem__ self item w).2 = queries w)
  ∧ DataFrame.columns self w = (ok (source_fields (mappings obj)), w).
Proof.
  intros Hself. split.
  - intros item.
    destruct (DataFrame.__getitem__ self item w) as [r w'] eqn:Hrun.
    destruct (getitem_cases _ _ _ _ _ _ Hself Hrun)
      as [[-> _] | (names & m & _ & _ & _ & ->)]; done.
  - unfold DataFrame.columns, bind, self_, ret. by rewrite Hself.
Qed.

Lemma getitem_columns_no_query_witness :
  (∀ item, queries (DataFrame.__getitem__ (H := reviews_store) 0 item
                      (one_frame reviews_schema)).2 = [])
  ∧ DataFrame.columns 0 (one_frame reviews_schema)
    = (ok ["reviewerId"; "vendorId"; "rating"; "date"],
       one_frame reviews_schema).
Proof.
  apply (getitem_columns_no_query (H := reviews_store) 0 reviews_frame
           (one_frame reviews_schema)).
  reflexivity.
Defined.

(** X19.  [__getitem__] checks a single name and no name of a tuple.  For
    a tuple with names, it raises what the making of the mappings raises
    and else returns a new frame, be the names source fields or not; for a
    single name that is no source field it raises without asking for the
    mappings; for the empty tuple it returns [None]. *)
Theorem getitem_tuple_unchecked `{Collaborators} (self : nat)
    (obj : DataFrameObj) (w : world) :
  heap w !! self = Some obj →
  (∀ name names m,
     Mappings_of_columns (mappings obj) (name :: names) = ok m →
     DataFrame.__getitem__ self (ItemTuple (name :: names)) w
     = (ok (Some (length (heap w))),
        {| heap := heap w ++ [narrowed obj m]; queries := queries w |}))
  ∧ (∀ name names e,
       Mappings_of_columns (mappings obj) (name :: names) = raise e →
       DataFrame.__getitem__ self (ItemTuple (name :: names)) w = (raise e, w))
  ∧ (∀ name, is_source_field (mappings obj) name = false →
       ∃ e, DataFrame.__getitem__ self (Item (VStr name)) w = (raise e, w))
  ∧ DataFrame.__getitem__ self (ItemTuple []) w = (ok None, w).
Proof.
  intros Hself. repeat split.
  - intros name names m Hm.
    rewrite (getitem_columns _ _ _ _ (name :: names) Hself) by done.
    rewrite decide_True by (simpl; lia). by rewrite Hm.
  - intros name names e Hm.
    rewrite (getitem_columns _ _ _ _ (name :: names) Hself) by done.
    rewrite decide_True by (simpl; lia). by rewrite Hm.
  - intros name Hunknown. eexists. by apply (getitem_unknown_name _ obj).
  - rewrite (getitem_columns _ _ _ _ [] Hself) by done.
    rewrite decide_False; [done | simpl; lia].
Qed.

Lemma getitem_tuple_unchecked_witness :
  DataFrame.__getitem__ (H := with_columns reviews_store (λ m _, ok m)) 0
    (ItemTuple ["nonexistent_field"]) (one_frame reviews_schema)
  = (ok (Some 1%nat),
     {| heap := [reviews_frame; reviews_frame]; queries := [] |})
  ∧ ∃ e, DataFrame.__getitem__
           (H := with_columns reviews_store (λ m _, ok m)) 0
           (Item (VStr "nonexistent_field")) (one_frame reviews_schema)
         = (raise e, one_frame reviews_schema).
Proof.
  destruct (getitem_tuple_unchecked
              (H := with_columns reviews_store (λ m _, ok m)) 0 reviews_frame
              (one_frame reviews_schema) eq_refl)
    as (Htuple & _ & Hname & _).
  split.
  - apply (Htuple "nonexistent_field" [] reviews_schema). reflexivity.
  - apply (Hname "nonexistent_field"). vm_compute; reflexivity.
Defined.

(** X20.  The frame that a subscript returns is fetched from the same
    index pattern: [head] on it sends one search for that pattern, and the
    columns of what it returns are the source fields of the mappings made
    for the names of the subscript. *)
Theorem head_of_getitem `{Collaborators} (self new : nat)
    (obj : DataFrameObj) (item : item) (n : Z) (w w1 w2 : world)
    (df : Frame) :
  heap w !! self = Some obj →
  DataFrame.__getitem__ self item w = (ok (Some new), w1) →
  DataFrame.head new n w1 = (ok df, w2) →
  ∃ names m,
    names_of item = Some names
    ∧ Mappings_of_columns (mappings obj) names = ok m
    ∧ df_columns df = source_fields m
    ∧ queries w2
      = queries w ++ [QSearch (ed_Client (client obj)) (index_pattern obj) n].
Proof.
  intros Hself Hitem Hhead.
  destruct (getitem_cases _ _ _ _ _ _ Hself Hitem)
    as [[_ Hnone] | (names & m & Hnames & Hm & Hnew & ->)];
    [by destruct (Hnone new) | ].
  injection Hnew as ->. exists names, m. split; [done | ]. split; [done | ].
  assert (Hobj : heap {| heap := heap w ++ [narrowed obj m];
                         queries := queries w |} !! length (heap w)
                 = Some (narrowed obj m))
    by (simpl; by rewrite lookup_app_r, Nat.sub_diag).
  rewrite (head_run _ _ _ _ Hobj) in Hhead. injection Hhead as Hres <-.
  apply rbind_ok in Hres as (results & _ & Hres).
  split; [by apply _es_results_to_pandas_columns in Hres | done].
Qed.

Lemma head_of_getitem_witness :
  ∃ names m,
    names_of (ItemTuple ["date"; "rating"]) = Some names
    ∧ Mappings_of_columns (Collaborators := reviews_store) reviews_schema names
      = ok m
    ∧ df_columns {| index := [LInt 0; LInt 1];
                    data := [("rating", [Cell VNone; Cell VNone]);
                             ("date", [Cell (VTimestamp 1144); NaN])] |}
      = source_fields m
    ∧ [QSearch a_client "reviews" 5]
      = [] ++ [QSearch (ed_Client (Collaborators := reviews_store) a_client)
                 "reviews" 5].
Proof.
  apply (head_of_getitem (H := reviews_store) 0 1 reviews_frame
           (ItemTuple ["date"; "rating"]) 5 (one_frame reviews_schema)
           (DataFrame.__getitem__ (H := reviews_store) 0
              (ItemTuple ["date"; "rating"]) (one_frame reviews_schema)).2
           (DataFrame.head (H := reviews_store) 1 5
              (DataFrame.__getitem__ (H := reviews_store) 0
                 (ItemTuple ["date"; "rating"]) (one_frame reviews_schema)).2).2).
  - reflexivity.
  - vm_compute; reflexivity.
  - vm_compute; reflexivity.
Defined.

(** X21.  [DataFrame(client, index_pattern, mappings, operations)] with
    mappings given asks the store nothing; without, it asks once for the
    mappings of the index pattern, through the wrapped client, and an
    exception of that is raised as it is, with no frame made.  The new
    frame comes after the frames there are and leaves them as they are; its
    operations are the ones given, or none. *)
Theorem init_frame `{Collaborators} (c : Client) (i : string)
    (ops : option (list operation)) (w : world) :
  (∀ m, DataFrame.__init__ c i (Some m) ops w
        = (ok (length (heap w)),
           {| heap := heap w ++ [ {| client := ed_Client c;
                                     index_pattern := i; mappings := m;
                                     operations := default [] ops |} ];
              queries := queries w |}))
  ∧ (∀ m, Mappings_of_index (ed_Client c) i = ok m →
          DataFrame.__init__ c i None ops w
          = (ok (length (heap w)),
             {| heap := heap w ++ [ {| client := ed_Client c;
                                       index_pattern := i; mappings := m;
                                       operations := default [] ops |} ];
                queries := queries w ++ [QMappings (ed_Client c) i] |}))
  ∧ (∀ e, Mappings_of_index (ed_Client c) i = raise e →
          DataFrame.__init__ c i None ops w
          = (raise e, asked w (QMappings (ed_Client c) i))).
Proof.
  unfold DataFrame.__init__, bind, ret, ask, new_object.
  split; [ | split].
  - intros m. by destruct ops.
  - intros m Hm. rewrite Hm. by destruct ops.
  - intros e He. by rewrite He.
Qed.

Lemma init_frame_witness :
  DataFrame.__init__
    (H := with_mappings reviews_store (raise (TransportError 503)))
    a_client "reviews" None None (one_frame reviews_schema)
  = (raise (TransportError 503),
     asked (one_frame reviews_schema) (QMappings a_client "reviews"))
  ∧ DataFrame.__init__ (H := reviews_store) a_client "reviews" None
      (Some [Operation "filter"]) {| heap := []; queries := [] |}
    = (ok 0%nat,
       {| heap := [ {| client := a_client; index_pattern := "reviews";
                       mappings := reviews_schema;
                       operations := [Operation "filter"] |} ];
          queries := [QMappings a_client "reviews"] |}).
Proof.
  split.
  - apply (init_frame
             (H := with_mappings reviews_store (raise (TransportError 503)))
             a_client "reviews" None (one_frame reviews_schema)).
    reflexivity.
  - apply (init_frame (H := reviews_store) a_client "reviews"
             (Some [Operation "filter"]) {| heap := []; queries := [] |}).
    reflexivity.
Defined.

(** ** Rendering *)

Section RenderingLemmas.
Context `{Collaborators} `{DataFrame.Rendering}.

(** [to_string], from what [head(60)] gives *)
Lemma to_string_run (self : nat) (obj : DataFrameObj) (w : world) :
  heap w !! self = Some obj →
  DataFrame.to_string self w
  = match (DataFrame.head self 60 w).1 with
    | inl e => (raise e, asked w (QSearch (client obj) (index_pattern obj) 60))
    | inr head =>
        match DataFrame.len self
                (asked w (QSearch (client obj) (index_pattern obj) 60)) with
        | (inl e, w') => (raise e, w')
        | (inr num_rows, w') =>
            (if decide (60 < num_rows)
             then rbind (for_each (source_fields (mappings obj))
                           (DataFrame.sparse_item head num_rows) [])
                        (λ d, DataFrame.sparse_to_string d 60)
             else DataFrame.frame_to_string head 60, w')
        end
    end.
Proof.
  intros Hself. unfold DataFrame.to_string, bind at 1.
  rewrite (head_run self obj 60 w Hself). cbn [fst snd].
  destruct (rbind _ _) as [e | head]; [done | ].
  unfold bind at 1.
  assert (Hself' : heap (asked w (QSearch (client obj) (index_pattern obj)
                                    60)) !! self = Some obj) by done.
  rewrite (len_run_count _ _ _ Hself').
  destruct (rbind (client_count _ _) _) as [e | num_rows]; [done | ].
  destruct (decide (60 < num_rows)); [ | done].
  unfold DataFrame.columns, lift, ret, self_. unfold bind.
  cbn [heap asked]. rewrite Hself. do 2 step_ok.
  by destruct (for_each _ _ _).
Qed.

Lemma dict_get_Some_elem {V} (d : list (string * V)) (k : string) (v : V) :
  dict_get d k = Some v → (k, v) ∈ d.
Proof.
  induction d as [ | [k' v'] d IH]; simpl; [done | ].
  destruct (decide (k' = k)) as [-> | Hne].
  - intros [= ->]. left.
  - intros Hget. right. by apply IH.
Qed.

(** The dict of [to_string]: for names that are all different and columns
    of the frame, it has the names as its keys, in their order, when no
    column of the frame fails to be made sparse. *)
Lemma for_each_sparse_item (head : Frame) (num_rows : Z) names : ∀ acc,
  NoDup names →
  (∀ c, c ∈ names → c ∈ df_columns head ∧ c ∉ dict_keys acc) →
  Forall (λ col : string * list cell,
            ∃ column, DataFrame.sparse_column col.2 num_rows = ok column)
         (data head) →
  ∃ d, for_each names (DataFrame.sparse_item head num_rows) acc = ok d
       ∧ dict_keys d = dict_keys acc ++ names.
Proof.
  induction names as [ | c names IH]; intros acc Hdup Hnames Hsparse;
    cbn [for_each].
  - exists acc. by rewrite app_nil_r.
  - apply NoDup_cons in Hdup as [Hc Hdup].
    destruct (Hnames c) as [Hin Hfresh]; [left | ].
    unfold DataFrame.sparse_item at 1, df_getitem.
    destruct (dict_get (data head) c) as [col | ] eqn:Hget;
      [ | by apply dict_get_None in Hget].
    step_ok.
    destruct (proj1 (Forall_forall _ _) Hsparse (c, col)
                (dict_get_Some_elem _ _ _ Hget)) as [column Hcolumn].
    cbn [snd] in Hcolumn. rewrite Hcolumn. do 2 step_ok.
    destruct (IH (dict_set acc c column) Hdup) as (d & Hd & Hkeys);
      [ | done | ].
    + intros c' Hc'. destruct (Hnames c') as [Hin' Hfresh']; [by right | ].
      split; [done | ]. rewrite dict_keys_set_new by done.
      rewrite elem_of_app, list_elem_of_singleton.
      intros [? | ->]; done.
    + exists d. split; [done | ].
      rewrite Hkeys, dict_keys_set_new by done. by rewrite <- app_assoc.
Qed.

End RenderingLemmas.

(** X22.  [to_string], and with it [__repr__], asks the store for 60 rows
    and then for the count, and for nothing more; when the search or the
    reading of its hits raises, the exception is raised as it is and the
    count is not asked for. *)
Theorem to_string_queries `{Collaborators} `{DataFrame.Rendering}
    (self : nat) (obj : DataFrameObj) (w : world) :
  heap w !! self = Some obj →
  (∀ e, (DataFrame.head self 60 w).1 = raise e →
        DataFrame.__repr__ self w
        = (raise e, asked w (QSearch (client obj) (index_pattern obj) 60)))
  ∧ (∀ df, (DataFrame.head self 60 w).1 = ok df →
           queries (DataFrame.__repr__ self w).2
           = queries w ++ [QSearch (client obj) (index_pattern obj) 60;
                           QCount (client obj) (index_pattern obj)]).
Proof.
  intros Hself. unfold DataFrame.__repr__.
  rewrite (to_string_run _ _ _ Hself). split.
  - by intros e ->.
  - intros df ->.
    assert (Hself' : heap (asked w (QSearch (client obj) (index_pattern obj)
                                      60)) !! self = Some obj) by done.
    rewrite (len_run_count _ _ _ Hself').
    destruct (rbind _ _) as [e | num_rows]; simpl; by rewrite <- app_assoc.
Qed.

Lemma to_string_queries_witness :
  queries (DataFrame.__repr__ (H := reviews_store) (H0 := plain_rendering) 0
             (one_frame reviews_schema)).2
  = [QSearch a_client "reviews" 60; QCount a_client "reviews"].
Proof.
  destruct (to_string_queries (H := reviews_store) (H0 := plain_rendering) 0
              reviews_frame (one_frame reviews_schema) eq_refl)
    as [_ Hqueries].
  apply (Hqueries reviews_head). vm_compute; reflexivity.
Defined.

(** X23.  When the store counts no more than 60 documents, [to_string] is
    what pandas renders of the frame of [head(60)]. *)
Theorem to_string_small `{Collaborators} `{DataFrame.Rendering}
    (self : nat) (obj : DataFrameObj) (w : world) (df : Frame) (rows : Z) :
  heap w !! self = Some obj →
  (DataFrame.head self 60 w).1 = ok df →
  client_count (client obj) (index_pattern obj) = ok rows →
  0 ≤ rows ≤ 60 →
  DataFrame.to_string self w
  = (DataFrame.frame_to_string df 60,
     asked (asked w (QSearch (client obj) (index_pattern obj) 60))
           (QCount (client obj) (index_pattern obj))).
Proof.
  intros Hself Hhead Hcount [Hlo Hhi].
  rewrite (to_string_run _ _ _ Hself), Hhead.
  assert (Hself' : heap (asked w (QSearch (client obj) (index_pattern obj)
                                    60)) !! self = Some obj) by done.
  rewrite (len_run _ _ _ _ Hself' Hcount) by (unfold maxsize; lia).
  do 2 step_ok. by rewrite decide_False by lia.
Qed.

Lemma to_string_small_witness :
  DataFrame.to_string (H := reviews_store) (H0 := plain_rendering) 0
    (one_frame reviews_schema)
  = (ok "reviewerId,vendorId,rating,date",
     asked (asked (one_frame reviews_schema) (QSearch a_client "reviews" 60))
           (QCount a_client "reviews")).
Proof.
  apply (to_string_small (H := reviews_store) (H0 := plain_rendering) 0
           reviews_frame (one_frame reviews_schema) reviews_head 2).
  - reflexivity.
  - vm_compute; reflexivity.
  - reflexivity.
  - lia.
Defined.

(** X24.  When the store counts more than 60 documents and [SparseArray]
    takes each column of the frame of [head(60)], [to_string] renders a
    frame of sparse columns that has the columns of the schema, in their
    order: every column it looks up in the frame of [head(60)] is there.
    This is for source fields that are all different. *)
Theorem to_string_large `{Collaborators} `{DataFrame.Rendering}
    (self : nat) (obj : DataFrameObj) (w : world) (df : Frame) (rows : Z) :
  heap w !! self = Some obj →
  (DataFrame.head self 60 w).1 = ok df →
  client_count (client obj) (index_pattern obj) = ok rows →
  60 < rows ≤ maxsize →
  NoDup (source_fields (mappings obj)) →
  Forall (λ col : string * list cell,
            ∃ column, DataFrame.sparse_column col.2 rows = ok column)
         (data df) →
  ∃ d, DataFrame.to_string self w
       = (DataFrame.sparse_to_string d 60,
          asked (asked w (QSearch (client obj) (index_pattern obj) 60))
                (QCount (client obj) (index_pattern obj)))
       ∧ dict_keys d = source_fields (mappings obj).
Proof.
  intros Hself Hhead Hcount [Hlo Hhi] Hdup Hsparse.
  assert (Hcols : df_columns df = source_fields (mappings obj)).
  { rewrite (head_run _ _ _ _ Hself) in Hhead. simpl in Hhead.
    apply rbind_ok in Hhead as (results & _ & Hres).
    by apply _es_results_to_pandas_columns in Hres. }
  destruct (for_each_sparse_item df rows (source_fields (mappings obj)) []
              Hdup) as (d & Hd & Hkeys); [ | done | ].
  { intros c Hc. rewrite Hcols. split; [done | apply not_elem_of_nil]. }
  exists d. split; [ | done].
  rewrite (to_string_run _ _ _ Hself), Hhead.
  assert (Hself' : heap (asked w (QSearch (client obj) (index_pattern obj)
                                    60)) !! self = Some obj) by done.
  rewrite (len_run _ _ _ _ Hself' Hcount) by lia.
  do 2 step_ok. rewrite decide_True by lia. by rewrite Hd.
Qed.

Lemma to_string_large_witness :
  ∃ d, DataFrame.to_string (H := many_store) (H0 := plain_rendering) 0
         (one_frame reviews_schema)
       = (DataFrame.sparse_to_string (Rendering := plain_rendering) d 60,
          asked (asked (one_frame reviews_schema)
                   (QSearch a_client "reviews" 60))
                (QCount a_client "reviews"))
       ∧ dict_keys d = ["reviewerId"; "vendorId"; "rating"; "date"].
Proof.
  apply (to_string_large (H := many_store) (H0 := plain_rendering) 0
           reviews_frame (one_frame reviews_schema) many_head 61).
  - reflexivity.
  - vm_compute; reflexivity.
  - reflexivity.
  - vm_compute. split; [reflexivity | discriminate].
  - apply (bool_decide_unpack (NoDup (source_fields reviews_schema))).
    vm_compute. exact I.
  - repeat constructor; eexists; vm_compute; reflexivity.
Defined.

(** ** Deleting a model, the other outcomes *)

(** X25.  [delete_model] never raises [NotFoundError]; every other
    exception of the client's call is raised as it is, and a call that
    returns makes [delete_model] return [None].  The store is left as the
    one call left it. *)
Theorem delete_model_outcomes `{MLModel.MLClient} (self : MLModel.MLModelObj)
    (s : MLModel.store) :
  (MLModel.delete_model self s).1 ≠ raise NotFoundError
  ∧ (MLModel.delete_model self s).2
    = (MLModel.delete_trained_model (MLModel._client self)
         (MLModel._model_id self) [404] s).2
  ∧ (∀ e, e ≠ NotFoundError →
       (MLModel.delete_trained_model (MLModel._client self)
          (MLModel._model_id self) [404] s).1 = raise e →
       (MLModel.delete_model self s).1 = raise e)
  ∧ (∀ body,
       (MLModel.delete_trained_model (MLModel._client self)
          (MLModel._model_id self) [404] s).1 = ok body →
       (MLModel.delete_model self s).1 = ok VNone).
Proof.
  unfold MLModel.delete_model.
  destruct (MLModel.delete_trained_model _ _ _ s) as [[e | body] s']; simpl.
  - split; [ | split; [ | split]].
    + by destruct e.
    + by destruct e.
    + intros e' Hother [= <-]. by destruct e.
    + discriminate.
  - split; [ | split; [ | split]]; done.
Qed.

Lemma delete_model_outcomes_witness :
  (MLModel.delete_model (H := MLModel.set_client false)
     (MLModel.__init__ (H := MLModel.set_client false) a_client "absent")
     ({["other"]} : gset string)).1
  ≠ raise NotFoundError
  ∧ (MLModel.delete_model (H := MLModel.set_client true)
       (MLModel.__init__ (H := MLModel.set_client true) a_client "other")
       ({["other"]} : gset string)).1
    = ok VNone.
Proof.
  split.
  - apply (delete_model_outcomes (H := MLModel.set_client false)
             (MLModel.__init__ (H := MLModel.set_client false) a_client
                "absent")
             ({["other"]} : gset string)).
  - destruct (delete_model_outcomes (H := MLModel.set_client true)
                (MLModel.__init__ (H := MLModel.set_client true) a_client
                   "other")
                ({["other"]} : gset string))
      as (_ & _ & _ & Hreturns).
    apply (Hreturns (VDict [("acknowledged", VBool true)])).
    vm_compute. reflexivity.
Defined.
